(** * The storefront engine of [backend/app/services.py], embedded in Rocq

    The Python service [EcommerceService] keeps a catalog of products, one
    cart, an order history and a list of discount codes.  Its methods are
    embedded here as computations in a state-and-exception monad over the
    attributes of the service object.  Python [int] is [Z], Python [float]
    is IEEE 754 binary64 ([spec_float] with precision 53), lists are lists.
    [Product] objects are mutated in place and shared between the catalog
    and the cart lines, so they live in a heap and are referred to by
    location; the catalog [Dict[str, Product]] is a [gmap] from product ids
    to locations. *)

From Stdlib Require Import ZArith String Ascii List Lia.
From Stdlib Require Import Floats.SpecFloat.
From stdpp Require Import base option list gmap strings.

Local Open Scope Z_scope.

(** ** Python floats: binary64 *)

Module Float.

Definition t : Type := spec_float.

Definition prec : Z := 53.
Definition emax : Z := 1024.

Definition zero : t := S754_zero false.

Definition add : t -> t -> t := SFadd prec emax.
Definition sub : t -> t -> t := SFsub prec emax.
Definition mul : t -> t -> t := SFmul prec emax.
Definition div : t -> t -> t := SFdiv prec emax.

(** The correctly rounded quotient of two integers, [0 < d]: the value of a
    decimal literal such as [199.99] is [of_ratio 19999 100]. *)
Definition of_ratio (n d : Z) : t :=
  match n with
  | Z0 => S754_zero false
  | _ =>
    let '(mz, ez, lz) := SFdiv_core_binary prec emax (Z.abs n) 0 d 0 in
    binary_round_aux prec emax (n <? 0) mz ez lz
  end.

(** [float(n)] for a Python [int]: correctly rounded, and [None] where
    CPython raises [OverflowError] (int too large to convert to float). *)
Definition of_int (n : Z) : option t :=
  match binary_normalize prec emax n 0 false with
  | S754_infinity _ => None
  | x => Some x
  end.

(** Nearest integer to [num / den], ties to even ([0 < den]). *)
Definition round_half_even (num den : Z) : Z :=
  let q := num / den in
  let r := num mod den in
  match 2 * r ?= den with
  | Lt => q
  | Gt => q + 1
  | Eq => if Z.even q then q else q + 1
  end.

(** The builtin [round(x, ndigits)] for [0 <= ndigits]: CPython prints the
    exact binary value with [ndigits] decimals, correctly rounded (ties to
    even), and reads the decimal string back, correctly rounded again.
    Infinities, NaN and zeros are returned as they are, and so is [x] when
    [ndigits] exceeds 323. *)
Definition round (x : t) (ndigits : nat) : t :=
  match x with
  | S754_finite s m e =>
    if (323 <? Z.of_nat ndigits) then x else
    let scale := 10 ^ Z.of_nat ndigits in
    let n := if 0 <=? e then Zpos m * 2 ^ e * scale
             else round_half_even (Zpos m * scale) (2 ^ (- e)) in
    if n =? 0 then S754_zero s else
    let '(mz, ez, lz) := SFdiv_core_binary prec emax n 0 scale 0 in
    binary_round_aux prec emax s mz ez lz
  | _ => x
  end.

(** [sum] over floats, accumulated from the left starting at [0]. *)
Definition sum (xs : list t) : t := fold_left add xs zero.

End Float.

(** ** [models.py] *)

(** Python references to [Product] objects.  The catalog, the cart lines and
    the order lines refer to products by reference; the objects themselves
    live in the heap of the state below.  [CartItem(product=product)] stores
    the object it is handed: a model instance given as a field value is kept
    as it is, not validated again and not copied. *)
Definition loc : Type := nat.

Definition datetime : Type := Z.

Inductive ProductCategory : Type :=
  | ELECTRONICS | CLOTHING | BOOKS | HOME | SPORTS.

Module Product.
Record t : Type := mk {
  id : string;
  name : string;
  description : string;
  price : Float.t;
  category : ProductCategory;
  stock : Z;
  image_url : option string
}.
Definition set_stock (s : Z) (p : t) : t :=
  mk (id p) (name p) (description p) (price p) (category p) s (image_url p).
End Product.

Module CartItem.
Record t : Type := mk {
  product_id : string;
  quantity : Z;
  product : loc
}.
Definition set_quantity (q : Z) (i : t) : t := mk (product_id i) q (product i).
End CartItem.

Definition heap_t : Type := loc -> Product.t.

Module Cart.
Record t : Type := mk {
  items : list CartItem.t;
  total_amount : Float.t;
  item_count : Z
}.

(** [Cart()] *)
Definition new : t := mk [] Float.zero 0.

(** [item.quantity * item.product.price]: the [int] is converted to a float
    first, which raises [OverflowError] when it is too large. *)
Definition line_amount (h : heap_t) (item : CartItem.t) : option Float.t :=
  q ← Float.of_int (CartItem.quantity item);
  Some (Float.mul q (Product.price (h (CartItem.product item)))).

(** [sum(item.quantity * item.product.price for item in self.items)] *)
Definition sum_amounts (h : heap_t) (its : list CartItem.t) : option Float.t :=
  amounts ← mapM (line_amount h) its;
  Some (Float.sum amounts).

(** [sum(item.quantity for item in self.items)] *)
Definition sum_quantities (its : list CartItem.t) : Z :=
  fold_left Z.add (map CartItem.quantity its) 0.

Definition set_items (its : list CartItem.t) (c : t) : t :=
  mk its (total_amount c) (item_count c).
End Cart.

Module DiscountCode.
Record t : Type := mk {
  code : string;
  discount_percentage : Float.t;
  is_used : bool;
  created_at : datetime;
  used_at : option datetime;
  order_id : option string
}.
(** [DiscountCode(code=code, created_at=now)] with the declared defaults *)
Definition new (code : string) (created_at : datetime) : t :=
  mk code (Float.of_ratio 10 1) false created_at None None.
Definition mark_used (now : datetime) (d : t) : t :=
  mk (code d) (discount_percentage d) true (created_at d) (Some now) (order_id d).
End DiscountCode.

Inductive OrderStatus : Type := PENDING | CONFIRMED | CANCELLED.

Module Order.
Record t : Type := mk {
  id : string;
  items : list CartItem.t;
  total_amount : Float.t;
  discount_amount : Float.t;
  final_amount : Float.t;
  discount_code : option string;
  status : OrderStatus;
  created_at : datetime;
  customer_id : option string
}.
End Order.

Module CheckoutRequest.
Record t : Type := mk {
  discount_code : option string;
  customer_id : option string
}.
End CheckoutRequest.

Module CheckoutResponse.
Record t : Type := mk {
  order_id : string;
  total_amount : Float.t;
  discount_amount : Float.t;
  final_amount : Float.t;
  discount_code : option string;
  message : string
}.
End CheckoutResponse.

(** [SAMPLE_PRODUCTS] *)
Definition SAMPLE_PRODUCTS : list Product.t := [
  Product.mk "prod_001" "Wireless Headphones"
    "High-quality wireless headphones with noise cancellation"
    (Float.of_ratio 19999 100) ELECTRONICS 50
    (Some "https://example.com/headphones.jpg"%string);
  Product.mk "prod_002" "Cotton T-Shirt"
    "Comfortable cotton t-shirt in various colors"
    (Float.of_ratio 2499 100) CLOTHING 100
    (Some "https://example.com/tshirt.jpg"%string);
  Product.mk "prod_003" "Programming Book"
    "Comprehensive guide to modern programming"
    (Float.of_ratio 4999 100) BOOKS 25
    (Some "https://example.com/book.jpg"%string);
  Product.mk "prod_004" "Coffee Maker"
    "Automatic coffee maker with timer"
    (Float.of_ratio 8999 100) HOME 30
    (Some "https://example.com/coffee-maker.jpg"%string);
  Product.mk "prod_005" "Yoga Mat"
    "Non-slip yoga mat for home workouts"
    (Float.of_ratio 3499 100) SPORTS 75
    (Some "https://example.com/yoga-mat.jpg"%string)
].

(** ** [services.py]: state, exceptions and the monad of the methods *)

(** The messages of the [ValueError]s the service raises, with the values
    the f-strings interpolate carried as data. *)
Inductive error_message : Type :=
  | ProductNotFound (product_id : string)
  | QuantityNotPositive
  | InsufficientStock (available : Z)
  | EmptyCart
  | InvalidDiscountCode
  | NotEligible.

Inductive exn : Type :=
  | ValueError (msg : error_message)
  | OverflowError
  | ZeroDivisionError.

(** The attributes of an [EcommerceService] object, and the heap holding the
    [Product] objects its references point to. *)
Record EcommerceService : Type := mkService {
  cart : Cart.t;
  orders : list Order.t;
  discount_codes : list DiscountCode.t;
  products : gmap string loc;
  order_counter : Z;
  discount_nth_order : Z;
  heap : heap_t
}.

Definition set_cart (c : Cart.t) (s : EcommerceService) : EcommerceService :=
  mkService c (orders s) (discount_codes s) (products s) (order_counter s)
    (discount_nth_order s) (heap s).
Definition set_orders (os : list Order.t) (s : EcommerceService) : EcommerceService :=
  mkService (cart s) os (discount_codes s) (products s) (order_counter s)
    (discount_nth_order s) (heap s).
Definition set_discount_codes (ds : list DiscountCode.t) (s : EcommerceService)
  : EcommerceService :=
  mkService (cart s) (orders s) ds (products s) (order_counter s)
    (discount_nth_order s) (heap s).
Definition set_order_counter (n : Z) (s : EcommerceService) : EcommerceService :=
  mkService (cart s) (orders s) (discount_codes s) (products s) n
    (discount_nth_order s) (heap s).
Definition set_heap (h : heap_t) (s : EcommerceService) : EcommerceService :=
  mkService (cart s) (orders s) (discount_codes s) (products s) (order_counter s)
    (discount_nth_order s) h.

(** Assignment to an attribute of the object behind a reference. *)
Definition heap_update (l : loc) (f : Product.t -> Product.t) (h : heap_t) : heap_t :=
  fun l' => if decide (l' = l) then f (h l) else h l'.

Inductive result (A : Type) : Type :=
  | Ok (a : A)
  | Raise (e : exn).
Arguments Ok {A} a.
Arguments Raise {A} e.

(** A method call: it runs on the state of the service and leaves a state
    behind whether it returns or raises. *)
Definition M (A : Type) : Type := EcommerceService -> result A * EcommerceService.

#[global] Instance M_ret : MRet M := fun A a st => (Ok a, st).
#[global] Instance M_bind : MBind M := fun A B f m st =>
  match m st with
  | (Ok a, st') => f a st'
  | (Raise e, st') => (Raise e, st')
  end.

Definition raise {A : Type} (e : exn) : M A := fun st => (Raise e, st).
Definition get : M EcommerceService := fun st => (Ok st, st).
Definition modify (f : EcommerceService -> EcommerceService) : M unit :=
  fun st => (Ok tt, f st).

(** [for x in xs: body(x)] *)
Fixpoint for_each {A : Type} (xs : list A) (body : A -> M unit) : M unit :=
  match xs with
  | [] => mret tt
  | x :: xs' => body x ;; for_each xs' body
  end.

(** *** The methods *)

(** [self.products.get(product_id)] *)
Definition get_product (product_id : string) : M (option loc) :=
  st ← get; mret (products st !! product_id).

(** [Cart.calculate_totals], on [self.cart] *)
Definition calculate_totals : M unit :=
  st ← get;
  match Cart.sum_amounts (heap st) (Cart.items (cart st)) with
  | None => raise OverflowError
  | Some total =>
    modify (set_cart (Cart.mk (Cart.items (cart st)) total
                        (Cart.sum_quantities (Cart.items (cart st)))))
  end.

(** The first cart line of the product, as the [for ... break] loop of
    [add_to_cart] finds it: its position in [self.cart.items]. *)
Definition find_existing_item (product_id : string) (its : list CartItem.t)
  : option (nat * CartItem.t) :=
  list_find (fun item => CartItem.product_id item = product_id) its.

Definition add_to_cart (product_id : string) (quantity : Z) : M Cart.t :=
  product ← get_product product_id;
  match product with
  | None => raise (ValueError (ProductNotFound product_id))
  | Some product =>
    if decide (quantity <= 0) then raise (ValueError QuantityNotPositive) else
    st ← get;
    if decide (Product.stock (heap st product) < quantity)
    then raise (ValueError (InsufficientStock (Product.stock (heap st product))))
    else
      (match find_existing_item product_id (Cart.items (cart st)) with
       | Some (i, existing_item) =>
         modify (fun st => set_cart (Cart.set_items
           (<[i := CartItem.set_quantity (CartItem.quantity existing_item + quantity)
                     existing_item]> (Cart.items (cart st))) (cart st)) st)
       | None =>
         modify (fun st => set_cart (Cart.set_items
           (Cart.items (cart st) ++ [CartItem.mk product_id quantity product])
           (cart st)) st)
       end) ;;
      modify (fun st => set_heap (heap_update product
        (fun p => Product.set_stock (Product.stock p - quantity) p) (heap st)) st) ;;
      calculate_totals ;;
      st ← get; mret (cart st)
  end.

Definition get_cart : M Cart.t := st ← get; mret (cart st).

(** The body of the loop of [clear_cart]: give the quantity of a cart line
    back to the stock of its product, when the catalog has the product. *)
Definition restore_stock (item : CartItem.t) : M unit :=
  product ← get_product (CartItem.product_id item);
  match product with
  | Some product =>
    modify (fun st => set_heap (heap_update product
      (fun p => Product.set_stock (Product.stock p + CartItem.quantity item) p)
      (heap st)) st)
  | None => mret tt
  end.

Definition clear_cart : M unit :=
  st ← get;
  for_each (Cart.items (cart st)) restore_stock ;;
  modify (set_cart Cart.new).

(** The first unused code equal to [code], as a position in
    [self.discount_codes]. *)
Definition _validate_discount_code (code : string)
  : M (option (nat * DiscountCode.t)) :=
  st ← get;
  mret (list_find (fun d => DiscountCode.code d = code /\ DiscountCode.is_used d = false)
          (discount_codes st)).

(** [s[:n]] *)
Definition prefix (n : nat) (s : string) : string := substring 0 n s.

(** [str.upper] on ASCII text *)
Definition upper_ascii (c : ascii) : ascii :=
  let n := nat_of_ascii c in
  if ((97 <=? n) && (n <=? 122))%nat then ascii_of_nat (n - 32) else c.
Fixpoint upper (s : string) : string :=
  match s with
  | EmptyString => EmptyString
  | String c s' => String (upper_ascii c) (upper s')
  end.

(** Truth value of an [Optional[str]]: [None] and the empty string are false. *)
Definition truthy (s : option string) : option string :=
  match s with
  | Some EmptyString => None
  | _ => s
  end.

(** [checkout].  [uuid4_hex] is the value of [uuid.uuid4().hex], [now_used]
    and [now_created] the readings of the two [datetime.now()] calls. *)
Definition checkout (request : CheckoutRequest.t)
    (uuid4_hex : string) (now_used now_created : datetime)
  : M CheckoutResponse.t :=
  st ← get;
  match Cart.items (cart st) with
  | [] => raise (ValueError EmptyCart)
  | _ =>
    let total_amount := Cart.total_amount (cart st) in
    '(discount_amount, discount_code) ←
      match truthy (CheckoutRequest.discount_code request) with
      | Some code =>
        discount_code_obj ← _validate_discount_code code;
        match discount_code_obj with
        | Some (i, d) =>
          let discount_amount :=
            Float.mul total_amount
              (Float.div (DiscountCode.discount_percentage d) (Float.of_ratio 100 1)) in
          let discount_amount := Float.round discount_amount 3 in
          modify (fun st => set_discount_codes
            (<[i := DiscountCode.mark_used now_used d]> (discount_codes st)) st) ;;
          mret (discount_amount, Some code)
        | None => raise (ValueError InvalidDiscountCode)
        end
      | None => mret (Float.zero, None)
      end;
    let final_amount := Float.round (Float.sub total_amount discount_amount) 3 in
    let order_id := ("order_" +:+ prefix 8 uuid4_hex)%string in
    st ← get;
    let order := Order.mk order_id (Cart.items (cart st)) total_amount
                   discount_amount final_amount discount_code CONFIRMED
                   now_created (CheckoutRequest.customer_id request) in
    modify (fun st => set_orders (orders st ++ [order]) st) ;;
    modify (fun st => set_order_counter (order_counter st + 1) st) ;;
    clear_cart ;;
    mret (CheckoutResponse.mk order_id total_amount discount_amount final_amount
            discount_code "Order placed successfully!")
  end.

Definition _generate_discount_code (uuid4_hex : string) (now : datetime)
  : M DiscountCode.t :=
  let code := ("SAVE10_" +:+ upper (prefix 6 uuid4_hex))%string in
  let discount_code := DiscountCode.new code now in
  modify (fun st => set_discount_codes (discount_codes st ++ [discount_code]) st) ;;
  mret discount_code.

(** [a % b] on Python ints is the floored remainder, [Z.modulo]; a zero
    divisor raises. *)
Definition generate_discount_code (uuid4_hex : string) (now : datetime)
  : M DiscountCode.t :=
  st ← get;
  if decide (order_counter st = 0) then raise (ValueError NotEligible) else
  if decide (discount_nth_order st = 0) then raise ZeroDivisionError else
  if decide (order_counter st mod discount_nth_order st <> 0)
  then raise (ValueError NotEligible)
  else _generate_discount_code uuid4_hex now.

(** [EcommerceService()]: the catalog holds a deep copy of every sample
    product under its id; heap cells beyond the catalog are never referred
    to. *)
Definition unallocated : Product.t :=
  Product.mk "" "" "" Float.zero ELECTRONICS 0 None.

Definition init : EcommerceService :=
  mkService Cart.new [] []
    (list_to_map (imap (fun l p => (Product.id p, l)) SAMPLE_PRODUCTS))
    0 5
    (fun l => default unallocated (SAMPLE_PRODUCTS !! l)).

(** ** Calls, runs and the quantities the properties speak of *)

(** One call of the request layer into the engine. *)
Inductive call : Type :=
  | AddToCart (product_id : string) (quantity : Z)
  | GetCart
  | ClearCart
  | Checkout (request : CheckoutRequest.t)
      (uuid4_hex : string) (now_used now_created : datetime)
  | GenerateDiscountCode (uuid4_hex : string) (now : datetime).

(** The state a call leaves behind, whether it returned or raised. *)
Definition exec (c : call) (st : EcommerceService) : EcommerceService :=
  match c with
  | AddToCart product_id quantity => snd (add_to_cart product_id quantity st)
  | GetCart => snd (get_cart st)
  | ClearCart => snd (clear_cart st)
  | Checkout request u t1 t2 => snd (checkout request u t1 t2 st)
  | GenerateDiscountCode u t => snd (generate_discount_code u t st)
  end.

Definition run (cs : list call) (st : EcommerceService) : EcommerceService :=
  fold_left (fun st c => exec c st) cs st.

Definition is_add_or_clear (c : call) : Prop :=
  match c with
  | AddToCart _ _ | ClearCart => True
  | _ => False
  end.

(** The quantity of a product held in cart lines. *)
Definition cart_quantity (product_id : string) (its : list CartItem.t) : Z :=
  Cart.sum_quantities
    (filter (fun item => CartItem.product_id item = product_id) its).

(** The cart lines after the update [add_to_cart] makes to them. *)
Definition added_items (product_id : string) (quantity : Z) (product : loc)
    (its : list CartItem.t) : list CartItem.t :=
  match find_existing_item product_id its with
  | Some (i, existing_item) =>
    <[i := CartItem.set_quantity (CartItem.quantity existing_item + quantity)
             existing_item]> its
  | None => its ++ [CartItem.mk product_id quantity product]
  end.

(** The heap after the restoring loop of [clear_cart]. *)
Definition restored_heap (catalog : gmap string loc) (its : list CartItem.t)
    (h : heap_t) : heap_t :=
  fold_left (fun h item =>
    match catalog !! CartItem.product_id item with
    | Some l =>
      heap_update l
        (fun p => Product.set_stock (Product.stock p + CartItem.quantity item) p) h
    | None => h
    end) its h.

(** The order [checkout] appends and the response it returns, from the
    amounts it computed. *)
Definition order_of (request : CheckoutRequest.t) (uuid4_hex : string)
    (now_created : datetime) (total_amount discount_amount : Float.t)
    (discount_code : option string) (its : list CartItem.t) : Order.t :=
  Order.mk ("order_" +:+ prefix 8 uuid4_hex) its total_amount discount_amount
    (Float.round (Float.sub total_amount discount_amount) 3)
    discount_code CONFIRMED now_created (CheckoutRequest.customer_id request).

Definition response_of (uuid4_hex : string) (total_amount discount_amount : Float.t)
    (discount_code : option string) : CheckoutResponse.t :=
  CheckoutResponse.mk ("order_" +:+ prefix 8 uuid4_hex) total_amount discount_amount
    (Float.round (Float.sub total_amount discount_amount) 3)
    discount_code "Order placed successfully!".

(** The state [checkout] leaves once the order is appended, the counter is
    advanced and the cart is cleared. *)
Definition committed (order : Order.t) (st : EcommerceService) : EcommerceService :=
  mkService Cart.new (orders st ++ [order]) (discount_codes st) (products st)
    (order_counter st + 1) (discount_nth_order st)
    (restored_heap (products st) (Cart.items (cart st)) (heap st)).

(** The discount [checkout] grants for a code object. *)
Definition discount_for (total_amount : Float.t) (d : DiscountCode.t) : Float.t :=
  Float.round
    (Float.mul total_amount
       (Float.div (DiscountCode.discount_percentage d) (Float.of_ratio 100 1))) 3.

(** A code [_validate_discount_code] accepts: some unused entry carries it. *)
Definition usable_code (code : string) (ds : list DiscountCode.t) : Prop :=
  exists d, d ∈ ds /\ DiscountCode.code d = code /\ DiscountCode.is_used d = false.

(** Everything of a product but its stock. *)
Definition static_fields (p : Product.t) : Product.t := Product.set_stock 0 p.

(** The catalog [EcommerceService()] builds: product ids and the references
    they are bound to. *)
Definition catalog_list : list (string * loc) :=
  [("prod_001", 0%nat); ("prod_002", 1%nat); ("prod_003", 2%nat);
   ("prod_004", 3%nat); ("prod_005", 4%nat)]%string.

(** What holds of every state the engine can be in. *)
Record inv (st : EcommerceService) : Prop := mkInv {
  inv_products : products st = products init;
  inv_nth : discount_nth_order st = 5;
  inv_counter : order_counter st = Z.of_nat (length (orders st));
  inv_nodup : NoDup (map CartItem.product_id (Cart.items (cart st)));
  inv_items : Forall (fun item =>
      products st !! CartItem.product_id item = Some (CartItem.product item)
      /\ 0 < CartItem.quantity item) (Cart.items (cart st));
  inv_stock : forall product_id l, products st !! product_id = Some l ->
      0 <= Product.stock (heap st l)
      /\ Product.stock (heap st l)
         + cart_quantity product_id (Cart.items (cart st))
         = Product.stock (heap init l);
  inv_totals :
      Cart.sum_amounts (heap st) (Cart.items (cart st))
        = Some (Cart.total_amount (cart st))
      /\ Cart.item_count (cart st) = Cart.sum_quantities (Cart.items (cart st));
  inv_static : forall l, static_fields (heap st l) = static_fields (heap init l)
}.

(** ** Sample requests and runs *)

Definition uuid_a : string := "3f2a9c1e5b7d4e8fa1b2c3d4e5f60718".

Definition no_discount : CheckoutRequest.t := CheckoutRequest.mk None None.

(** The code [generate_discount_code] derives from [uuid_a]. *)
Definition code_a : string := "SAVE10_3F2A9C".

Definition with_code_a : CheckoutRequest.t := CheckoutRequest.mk (Some code_a) None.

Definition with_empty_code : CheckoutRequest.t :=
  CheckoutRequest.mk (Some ""%string) None.

(** One order of one pair of headphones. *)
Definition one_order : list call :=
  [AddToCart "prod_001" 1; Checkout no_discount uuid_a 10 11].

Definition five_orders : list call :=
  one_order ++ one_order ++ one_order ++ one_order ++ one_order.

(** Five orders, a discount code, and a cart holding one pair of headphones. *)
Definition cart_and_code : list call :=
  five_orders ++ [GenerateDiscountCode uuid_a 20; AddToCart "prod_001" 1].

(** The same, after the code has been redeemed and the cart refilled. *)
Definition cart_and_used_code : list call :=
  cart_and_code ++ [Checkout with_code_a uuid_a 30 31; AddToCart "prod_001" 1].

(** A state no run reaches: the stock of the headphones is negative. *)
Definition negative_stock : EcommerceService :=
  set_heap (heap_update 0%nat (Product.set_stock (-5)) (heap init)) init.

(** ** [get_analytics] and the quantities of the further properties *)

Module AdminReport.
Record t : Type := mk {
  total_items_purchased : Z;
  total_purchase_amount : Float.t;
  discount_codes : list string;
  total_discount_amount : Float.t
}.
End AdminReport.

(** [get_analytics]: sums over the order history and the code strings, in
    the order the codes were generated. *)
Definition get_analytics : M AdminReport.t :=
  st ← get;
  let total_items_purchased :=
    fold_left Z.add
      (map (fun order => Cart.sum_quantities (Order.items order)) (orders st)) 0 in
  let total_purchase_amount := Float.sum (map Order.final_amount (orders st)) in
  let discount_codes := map DiscountCode.code (discount_codes st) in
  let total_discount_amount := Float.sum (map Order.discount_amount (orders st)) in
  mret (AdminReport.mk total_items_purchased total_purchase_amount
          discount_codes total_discount_amount).

(** How many orders of a history redeemed a code, and how many entries of
    the code list carry it, used or unused. *)
Definition orders_with (code : string) (os : list Order.t) : nat :=
  length (filter (fun order => Order.discount_code order = Some code) os).

Definition entries_with (code : string) (used : bool) (ds : list DiscountCode.t) : nat :=
  length (filter (fun d => DiscountCode.code d = code /\ DiscountCode.is_used d = used) ds).

(** What can become of an entry of the code list: nothing, or, for an
    unused one, being marked used. *)
Definition code_evolves (d d' : DiscountCode.t) : Prop :=
  d' = d \/ (DiscountCode.is_used d = false /\ exists now, d' = DiscountCode.mark_used now d).

(** The code list [ds] has become [ds']: entries evolved in place, and
    entries were appended. *)
Definition codes_evolve (ds ds' : list DiscountCode.t) : Prop :=
  exists kept more, ds' = kept ++ more /\ Forall2 code_evolves ds kept.

(** ASCII lower-case letters. *)
Definition is_lower (c : ascii) : bool :=
  ((97 <=? nat_of_ascii c) && (nat_of_ascii c <=? 122))%nat.

Fixpoint string_forall (p : ascii -> bool) (s : string) : bool :=
  match s with
  | EmptyString => true
  | String c s' => p c && string_forall p s'
  end.

(** What holds of an entry of the code list: the code is [SAVE10_] and at
    most six more characters, none of them a lower-case letter, the
    percentage is 10.0, and no order id is recorded. *)
Definition code_ok (d : DiscountCode.t) : Prop :=
  exists suffix,
    DiscountCode.code d = ("SAVE10_" +:+ suffix)%string
    /\ (String.length suffix <= 6)%nat
    /\ string_forall (fun c => negb (is_lower c)) suffix = true
    /\ DiscountCode.discount_percentage d = Float.of_ratio 10 1
    /\ DiscountCode.order_id d = None.

(** What holds of an order of the history, at the catalog prices of the
    heap [h]. *)
Record order_ok (h : heap_t) (order : Order.t) : Prop := mkOrderOk {
  ok_items : Order.items order <> [];
  ok_quantities : Forall (fun item => 0 < CartItem.quantity item) (Order.items order);
  ok_lines : NoDup (map CartItem.product_id (Order.items order));
  ok_status : Order.status order = CONFIRMED;
  ok_total : Cart.sum_amounts h (Order.items order) = Some (Order.total_amount order);
  ok_discount :
    match Order.discount_code order with
    | None => Order.discount_amount order = Float.zero
    | Some code =>
      code <> ""%string
      /\ Order.discount_amount order
         = Float.round
             (Float.mul (Order.total_amount order)
                (Float.div (Float.of_ratio 10 1) (Float.of_ratio 100 1))) 3
    end;
  ok_final :
    Order.final_amount order
    = Float.round (Float.sub (Order.total_amount order) (Order.discount_amount order)) 3
}.

(** A state no run reaches: the stock of the headphones is [2 ^ 1024], an
    integer too large to convert to a float. *)
Definition overflowing_stock : EcommerceService :=
  set_heap (heap_update 0%nat (Product.set_stock (2 ^ 1024)) (heap init)) init.

(** * Properties *)

(** ** The methods in closed form *)

Lemma for_each_restore (its : list CartItem.t) st :
  for_each its restore_stock st
  = (Ok tt, set_heap (restored_heap (products st) its (heap st)) st).
Proof.
  revert st. induction its as [|item its IH]; intros st.
  - destruct st; reflexivity.
  - cbn [for_each]. unfold mbind, M_bind.
    unfold restore_stock at 1, get_product. unfold mbind, M_bind, get, mret, M_ret.
    cbn [restored_heap fold_left].
    destruct (products st !! CartItem.product_id item) as [l|] eqn:E.
    + unfold modify at 1. rewrite IH. cbn. reflexivity.
    + rewrite IH. destruct st; reflexivity.
Qed.

Lemma clear_cart_eq st :
  clear_cart st
  = (Ok tt, set_cart Cart.new
              (set_heap (restored_heap (products st) (Cart.items (cart st)) (heap st)) st)).
Proof.
  unfold clear_cart. unfold mbind at 1, M_bind. unfold get at 1.
  unfold mbind at 1, M_bind.
  rewrite for_each_restore. reflexivity.
Qed.

Lemma add_to_cart_eq product_id quantity st :
  add_to_cart product_id quantity st =
  match products st !! product_id with
  | None => (Raise (ValueError (ProductNotFound product_id)), st)
  | Some l =>
    if decide (quantity <= 0) then (Raise (ValueError QuantityNotPositive), st)
    else if decide (Product.stock (heap st l) < quantity)
    then (Raise (ValueError (InsufficientStock (Product.stock (heap st l)))), st)
    else
      let its := added_items product_id quantity l (Cart.items (cart st)) in
      let h := heap_update l
                 (fun p => Product.set_stock (Product.stock p - quantity) p) (heap st) in
      match Cart.sum_amounts h its with
      | None =>
        (Raise OverflowError, set_heap h (set_cart (Cart.set_items its (cart st)) st))
      | Some total =>
        let c := Cart.mk its total (Cart.sum_quantities its) in
        (Ok c, set_heap h (set_cart c st))
      end
  end.
Proof.
  unfold add_to_cart, get_product, added_items, calculate_totals.
  unfold mbind, M_bind, mret, M_ret, get, raise, modify. 
  destruct (products st !! product_id) as [l|]; [|reflexivity].
  destruct (decide (quantity <= 0)); [reflexivity|].
  destruct (decide (Product.stock (heap st l) < quantity)); [reflexivity|].
  destruct (find_existing_item product_id (Cart.items (cart st))) as [[i it]|];
    cbn -[Cart.sum_amounts Cart.sum_quantities];
    destruct (Cart.sum_amounts _ _); reflexivity.
Qed.
Section quantities.
Implicit Types (its : list CartItem.t) (item : CartItem.t) (pid : string).

Lemma fold_left_add_acc (zs : list Z) (a : Z) :
  fold_left Z.add zs a = a + fold_left Z.add zs 0.
Proof.
  revert a. induction zs as [|z zs IH]; intros a; cbn; [lia|].
  rewrite (IH (a + z)), (IH (0 + z)). lia.
Qed.

Lemma sum_quantities_nil : Cart.sum_quantities [] = 0.
Proof. reflexivity. Qed.

Lemma sum_quantities_cons item its :
  Cart.sum_quantities (item :: its)
  = CartItem.quantity item + Cart.sum_quantities its.
Proof. unfold Cart.sum_quantities. cbn. apply fold_left_add_acc. Qed.

Lemma sum_quantities_app its1 its2 :
  Cart.sum_quantities (its1 ++ its2)
  = Cart.sum_quantities its1 + Cart.sum_quantities its2.
Proof.
  induction its1 as [|item its1 IH]; [reflexivity|].
  cbn [app]. rewrite !sum_quantities_cons, IH. lia.
Qed.

Lemma cart_quantity_cons pid item its :
  cart_quantity pid (item :: its)
  = (if decide (CartItem.product_id item = pid) then CartItem.quantity item else 0)
    + cart_quantity pid its.
Proof.
  unfold cart_quantity. rewrite filter_cons.
  destruct (decide (CartItem.product_id item = pid)); [|lia].
  apply sum_quantities_cons.
Qed.

Lemma cart_quantity_app pid its1 its2 :
  cart_quantity pid (its1 ++ its2) = cart_quantity pid its1 + cart_quantity pid its2.
Proof. unfold cart_quantity. rewrite filter_app. apply sum_quantities_app. Qed.

Lemma cart_quantity_absent pid its :
  pid ∉ map CartItem.product_id its -> cart_quantity pid its = 0.
Proof.
  induction its as [|item its IH]; [reflexivity|].
  cbn [map]. rewrite not_elem_of_cons. intros [Hne Hnot].
  rewrite cart_quantity_cons, IH by done.
  destruct (decide _); [congruence|lia].
Qed.

Lemma cart_quantity_insert pid its i item q :
  its !! i = Some item ->
  cart_quantity pid (<[i := CartItem.set_quantity q item]> its)
  = cart_quantity pid its
    + (if decide (CartItem.product_id item = pid) then q - CartItem.quantity item else 0).
Proof.
  revert i. induction its as [|x its IH]; intros [|i] H; try discriminate.
  - cbn in H. injection H as ->. cbn [insert list_insert].
    rewrite !cart_quantity_cons. cbn [CartItem.set_quantity CartItem.product_id CartItem.quantity].
    destruct (decide _); lia.
  - cbn in H. change (<[S i := ?y]> (x :: its)) with (x :: <[i := y]> its).
    rewrite !cart_quantity_cons, (IH i H). lia.
Qed.

Lemma cart_quantity_nonneg pid its :
  Forall (fun item => 0 < CartItem.quantity item) its -> 0 <= cart_quantity pid its.
Proof.
  induction 1 as [|item its Hq _ IH]; [done|].
  rewrite cart_quantity_cons. destruct (decide _); lia.
Qed.

Lemma quantity_le_cart_quantity item its :
  Forall (fun item => 0 < CartItem.quantity item) its ->
  item ∈ its ->
  CartItem.quantity item <= cart_quantity (CartItem.product_id item) its.
Proof.
  induction 1 as [|x its Hq Hall IH]; [by intros ?%elem_of_nil|].
  rewrite elem_of_cons, cart_quantity_cons. intros [->|Hin].
  - rewrite decide_True by done.
    pose proof (cart_quantity_nonneg (CartItem.product_id x) its Hall). lia.
  - specialize (IH Hin). destruct (decide _); lia.
Qed.

Lemma find_existing_item_Some pid its i item :
  find_existing_item pid its = Some (i, item) ->
  its !! i = Some item /\ CartItem.product_id item = pid.
Proof. unfold find_existing_item. intros (? & ? & _)%list_find_Some. done. Qed.

Lemma find_existing_item_None pid its :
  find_existing_item pid its = None <-> pid ∉ map CartItem.product_id its.
Proof.
  unfold find_existing_item. rewrite list_find_None, Forall_forall.
  split.
  - intros H Hin. apply list_elem_of_fmap in Hin as (item & -> & Hin). by apply (H item).
  - intros H item Hin Heq. apply H. apply list_elem_of_fmap. eauto.
Qed.

End quantities.

Lemma checkout_eq request u t1 t2 st :
  checkout request u t1 t2 st =
  match Cart.items (cart st) with
  | [] => (Raise (ValueError EmptyCart), st)
  | _ :: _ =>
    let total := Cart.total_amount (cart st) in
    match truthy (CheckoutRequest.discount_code request) with
    | Some code =>
      match list_find (fun d => DiscountCode.code d = code
                                /\ DiscountCode.is_used d = false)
                      (discount_codes st) with
      | Some (i, d) =>
        let st1 := set_discount_codes
                     (<[i := DiscountCode.mark_used t1 d]> (discount_codes st)) st in
        (Ok (response_of u total (discount_for total d) (Some code)),
         committed (order_of request u t2 total (discount_for total d) (Some code)
                      (Cart.items (cart st))) st1)
      | None => (Raise (ValueError InvalidDiscountCode), st)
      end
    | None =>
      (Ok (response_of u total Float.zero None),
       committed (order_of request u t2 total Float.zero None (Cart.items (cart st))) st)
    end
  end.
Proof.
  unfold checkout. unfold mbind at 1, M_bind. unfold get at 1.
  destruct (Cart.items (cart st)) as [|item its] eqn:Hits; [reflexivity|].
  destruct (truthy (CheckoutRequest.discount_code request)) as [code|].
  - unfold mbind at 1, M_bind. unfold mbind at 1, M_bind.
    unfold _validate_discount_code at 1. unfold mbind at 1, M_bind, get at 1, mret at 1, M_ret.
    destruct (list_find _ (discount_codes st)) as [[i d]|]; [|reflexivity].
    unfold mbind at 1, M_bind, modify at 1, mret at 1, M_ret.
    unfold mbind at 1, M_bind, get at 1.
    unfold mbind at 1, M_bind, modify at 1.
    unfold mbind at 1, M_bind, modify at 1.
    unfold mbind at 1, M_bind. rewrite clear_cart_eq.
    unfold mret, M_ret, committed, set_cart, set_heap, set_order_counter, set_orders, set_discount_codes; cbn [cart orders discount_codes products order_counter discount_nth_order heap]. rewrite ?Hits. reflexivity.
  - unfold mbind at 1, M_bind, mret at 1, M_ret.
    unfold mbind at 1, M_bind, get at 1.
    unfold mbind at 1, M_bind, modify at 1.
    unfold mbind at 1, M_bind, modify at 1.
    unfold mbind at 1, M_bind. rewrite clear_cart_eq.
    unfold mret, M_ret, committed, set_cart, set_heap, set_order_counter, set_orders, set_discount_codes; cbn [cart orders discount_codes products order_counter discount_nth_order heap]. rewrite ?Hits. reflexivity.
Qed.

Lemma generate_discount_code_eq u now st :
  generate_discount_code u now st =
  if decide (order_counter st = 0) then (Raise (ValueError NotEligible), st)
  else if decide (discount_nth_order st = 0) then (Raise ZeroDivisionError, st)
  else if decide (order_counter st mod discount_nth_order st <> 0)
  then (Raise (ValueError NotEligible), st)
  else
    let d := DiscountCode.new ("SAVE10_" +:+ upper (prefix 6 u)) now in
    (Ok d, set_discount_codes (discount_codes st ++ [d]) st).
Proof.
  unfold generate_discount_code, _generate_discount_code.
  unfold mbind, M_bind, get, raise, modify, mret, M_ret.
  repeat (destruct (decide _); [reflexivity|]). reflexivity.
Qed.

(** ** The heap and the catalog *)

Lemma heap_update_eq l f (h : heap_t) : heap_update l f h l = f (h l).
Proof. unfold heap_update. by rewrite decide_True. Qed.

Lemma heap_update_ne l l' f (h : heap_t) : l' <> l -> heap_update l f h l' = h l'.
Proof. intros. unfold heap_update. by rewrite decide_False. Qed.

Lemma heap_update_static l l' f (h : heap_t) :
  (forall p, static_fields (f p) = static_fields p) ->
  static_fields (heap_update l f h l') = static_fields (h l').
Proof.
  intros Hf. unfold heap_update. destruct (decide (l' = l)) as [->|]; [apply Hf|done].
Qed.

Lemma restored_heap_cons catalog item its h :
  restored_heap catalog (item :: its) h
  = restored_heap catalog its
      (match catalog !! CartItem.product_id item with
       | Some l =>
         heap_update l
           (fun p => Product.set_stock (Product.stock p + CartItem.quantity item) p) h
       | None => h
       end).
Proof. reflexivity. Qed.

Lemma restored_heap_static catalog its h l :
  static_fields (restored_heap catalog its h l) = static_fields (h l).
Proof.
  revert h. induction its as [|item its IH]; intros h; [done|].
  rewrite restored_heap_cons, IH.
  destruct (catalog !! CartItem.product_id item); [|done].
  by apply heap_update_static.
Qed.

Lemma restored_heap_stock (catalog : gmap string loc) its h product_id l :
  (forall product_id', catalog !! product_id' = Some l -> product_id' = product_id) ->
  catalog !! product_id = Some l ->
  Product.stock (restored_heap catalog its h l)
  = Product.stock (h l) + cart_quantity product_id its.
Proof.
  intros Hinj Hl. revert h. induction its as [|item its IH]; intros h.
  - rewrite (cart_quantity_absent product_id []) by apply not_elem_of_nil.
    cbn. lia.
  - rewrite restored_heap_cons, IH, cart_quantity_cons.
    destruct (catalog !! CartItem.product_id item) as [l0|] eqn:E.
    + destruct (decide (l0 = l)) as [->|Hne].
      * rewrite heap_update_eq, decide_True by (by apply Hinj). cbn. lia.
      * rewrite heap_update_ne, decide_False by congruence. lia.
    + rewrite decide_False by congruence. lia.
Qed.

Lemma products_init_lookup product_id l :
  products init !! product_id = Some l <-> (product_id, l) ∈ catalog_list.
Proof.
  symmetry. apply (elem_of_list_to_map (M := gmap string)).
  apply (bool_decide_unpack _). by vm_compute.
Qed.

Lemma products_init_inj product_id product_id' l :
  products init !! product_id = Some l ->
  products init !! product_id' = Some l -> product_id' = product_id.
Proof.
  rewrite !products_init_lookup. unfold catalog_list.
  rewrite !elem_of_cons, !elem_of_nil. intros H1 H2.
  repeat destruct H1 as [H1|H1]; repeat destruct H2 as [H2|H2];
    by simplify_eq.
Qed.

Lemma init_stock_bounds product_id l :
  products init !! product_id = Some l ->
  0 <= Product.stock (heap init l) <= 100.
Proof.
  rewrite products_init_lookup. unfold catalog_list.
  rewrite !elem_of_cons, !elem_of_nil. intros H.
  repeat destruct H as [H|H]; simplify_eq; cbn; lia.
Qed.

(** ** The cart lines after an add *)

Lemma added_items_product_ids pid q l its :
  NoDup (map CartItem.product_id its) ->
  NoDup (map CartItem.product_id (added_items pid q l its)).
Proof.
  intros Hnd. unfold added_items.
  destruct (find_existing_item pid its) as [[i item]|] eqn:E.
  - apply find_existing_item_Some in E as [Hi Hpid].
    change (map CartItem.product_id ?x) with (CartItem.product_id <$> x).
    rewrite list_fmap_insert. cbn [CartItem.set_quantity CartItem.product_id].
    rewrite list_insert_id; [done|]. by rewrite list_lookup_fmap, Hi.
  - apply find_existing_item_None in E. rewrite map_app. cbn.
    apply NoDup_app. split_and!; [done| |apply NoDup_singleton].
    intros x Hx ->%list_elem_of_singleton. done.
Qed.

Lemma added_items_Forall (P : CartItem.t -> Prop) pid q l its :
  Forall P its ->
  (forall item, item ∈ its -> P item -> CartItem.product_id item = pid ->
     P (CartItem.set_quantity (CartItem.quantity item + q) item)) ->
  P (CartItem.mk pid q l) ->
  Forall P (added_items pid q l its).
Proof.
  intros Hall Hset Hnew. unfold added_items.
  destruct (find_existing_item pid its) as [[i item]|] eqn:E.
  - apply find_existing_item_Some in E as [Hi Hpid].
    apply Forall_insert; [done|]. apply Hset; [|by eapply Forall_lookup_1|done].
    by eapply list_elem_of_lookup_2.
  - apply Forall_app. split; [done|]. by apply Forall_singleton.
Qed.

Lemma added_items_cart_quantity pid pid' q l its :
  cart_quantity pid' (added_items pid q l its)
  = cart_quantity pid' its + (if decide (pid = pid') then q else 0).
Proof.
  unfold added_items.
  destruct (find_existing_item pid its) as [[i item]|] eqn:E.
  - apply find_existing_item_Some in E as [Hi Hpid].
    rewrite (cart_quantity_insert _ _ _ _ _ Hi), Hpid.
    destruct (decide _); lia.
  - rewrite cart_quantity_app, cart_quantity_cons.
    cbn [CartItem.product_id CartItem.quantity].
    rewrite (cart_quantity_absent pid' []) by apply not_elem_of_nil.
    destruct (decide _); lia.
Qed.

(** ** Conversions that cannot overflow *)

Lemma of_int_small z : 0 <= z <= 100 -> is_Some (Float.of_int z).
Proof.
  intros Hz.
  assert (H : forallb (fun n => bool_decide (is_Some (Float.of_int (Z.of_nat n))))
                (seq 0 101) = true) by (vm_compute; reflexivity).
  rewrite forallb_forall in H.
  specialize (H (Z.to_nat z)). rewrite Z2Nat.id in H by lia.
  eapply bool_decide_eq_true_1, H. apply in_seq. lia.
Qed.

Lemma sum_amounts_small h its :
  Forall (fun item => 0 <= CartItem.quantity item <= 100) its ->
  is_Some (Cart.sum_amounts h its).
Proof.
  intros Hall. unfold Cart.sum_amounts.
  assert (Hm : is_Some (mapM (Cart.line_amount h) its)).
  { apply mapM_is_Some. eapply Forall_impl; [exact Hall|].
    intros item Hq. cbn. unfold Cart.line_amount.
    destruct (of_int_small _ Hq) as [x ->]. by eexists. }
  destruct Hm as [amounts ->]. by eexists.
Qed.

(** ** The invariant *)

Lemma inv_init_state : inv init.
Proof.
  split; try done.
  - cbn. apply NoDup_nil_2.
  - intros pid l Hl. cbn [cart init Cart.items Cart.new].
    rewrite (cart_quantity_absent pid []) by apply not_elem_of_nil.
    pose proof (init_stock_bounds pid l Hl). lia.
Qed.

Lemma inv_quantity_bounds st item :
  inv st -> item ∈ Cart.items (cart st) -> 0 < CartItem.quantity item <= 100.
Proof.
  intros Hinv Hin.
  pose proof (inv_items st Hinv) as Hitems.
  pose proof (proj1 (Forall_forall _ _) Hitems item Hin) as [Hl Hq].
  destruct (inv_stock st Hinv _ _ Hl) as [Hs Hsum].
  rewrite (inv_products st Hinv) in Hl.
  pose proof (init_stock_bounds _ _ Hl).
  assert (CartItem.quantity item
          <= cart_quantity (CartItem.product_id item) (Cart.items (cart st))).
  { apply quantity_le_cart_quantity; [|done].
    eapply Forall_impl; [exact Hitems|]. by intros ? [_ ?]. }
  lia.
Qed.

(** The invariant with the totals left out: what [add_to_cart] has
    established when it reaches [calculate_totals]. *)
Lemma inv_after_add st pid q l total count :
  inv st -> products st !! pid = Some l -> 0 < q ->
  q <= Product.stock (heap st l) ->
  let its := added_items pid q l (Cart.items (cart st)) in
  let h := heap_update l (fun p => Product.set_stock (Product.stock p - q) p) (heap st) in
  Cart.sum_amounts h its = Some total ->
  count = Cart.sum_quantities its ->
  inv (set_heap h (set_cart (Cart.mk its total count) st)).
Proof.
  intros Hinv Hl Hq Hstock its h Htotal ->.
  split; cbn [products discount_nth_order order_counter orders cart heap
              set_heap set_cart Cart.items Cart.total_amount Cart.item_count].
  - apply Hinv.
  - apply Hinv.
  - apply Hinv.
  - apply added_items_product_ids, Hinv.
  - apply added_items_Forall; [apply Hinv| |done].
    intros item _ [? ?] _. cbn. split; [done|lia].
  - intros pid' l' Hl'. subst its h.
    rewrite added_items_cart_quantity.
    destruct (inv_stock st Hinv _ _ Hl') as [Hs Hsum].
    destruct (decide (l' = l)) as [->|Hne].
    + assert (pid' = pid) as ->.
      { rewrite (inv_products st Hinv) in Hl, Hl'. eapply products_init_inj; eauto. }
      rewrite heap_update_eq, decide_True by done.
      cbn [Product.stock Product.set_stock]. lia.
    + rewrite heap_update_ne, decide_False by congruence. lia.
  - done.
  - intros l'. subst h. rewrite heap_update_static by done. apply Hinv.
Qed.

Lemma added_items_small st pid q l :
  inv st -> products st !! pid = Some l -> 0 < q ->
  q <= Product.stock (heap st l) ->
  Forall (fun item => 0 <= CartItem.quantity item <= 100)
    (added_items pid q l (Cart.items (cart st))).
Proof.
  intros Hinv Hl Hq Hstock.
  destruct (inv_stock st Hinv _ _ Hl) as [Hs Hsum].
  assert (Hb : 0 <= Product.stock (heap init l) <= 100).
  { rewrite (inv_products st Hinv) in Hl. eapply init_stock_bounds, Hl. }
  assert (Hpos : Forall (fun item => 0 < CartItem.quantity item) (Cart.items (cart st))).
  { eapply Forall_impl; [apply (inv_items st Hinv)|]. by intros ? [_ ?]. }
  apply added_items_Forall.
  - apply Forall_forall. intros item Hin.
    pose proof (inv_quantity_bounds st item Hinv Hin). lia.
  - intros item Hin _ Hpid. cbn.
    pose proof (quantity_le_cart_quantity item _ Hpos Hin) as Hle.
    rewrite Hpid in Hle.
    pose proof (inv_quantity_bounds st item Hinv Hin). lia.
  - pose proof (cart_quantity_nonneg pid _ Hpos). cbn. lia.
Qed.

Lemma add_to_cart_ok st pid q l :
  inv st -> products st !! pid = Some l -> 0 < q ->
  q <= Product.stock (heap st l) ->
  let its := added_items pid q l (Cart.items (cart st)) in
  let h := heap_update l (fun p => Product.set_stock (Product.stock p - q) p) (heap st) in
  exists total,
    Cart.sum_amounts h its = Some total
    /\ add_to_cart pid q st
       = (Ok (Cart.mk its total (Cart.sum_quantities its)),
          set_heap h (set_cart (Cart.mk its total (Cart.sum_quantities its)) st)).
Proof.
  intros Hinv Hl Hq Hstock its h.
  destruct (sum_amounts_small h its (added_items_small st pid q l Hinv Hl Hq Hstock))
    as [total Htotal].
  exists total. split; [done|].
  rewrite add_to_cart_eq, Hl.
  rewrite decide_False, decide_False by lia.
  cbv zeta. fold its h. by rewrite Htotal.
Qed.

Lemma add_to_cart_raises st pid q e st' :
  inv st -> add_to_cart pid q st = (Raise e, st') -> st' = st.
Proof.
  intros Hinv. rewrite add_to_cart_eq.
  destruct (products st !! pid) as [l|] eqn:Hl; [|congruence].
  destruct (decide (q <= 0)); [congruence|].
  destruct (decide (Product.stock (heap st l) < q)); [congruence|].
  destruct (add_to_cart_ok st pid q l Hinv Hl) as (total & Htotal & _); [lia..|].
  cbv zeta. rewrite Htotal. discriminate.
Qed.

Lemma inv_add_to_cart st pid q : inv st -> inv (snd (add_to_cart pid q st)).
Proof.
  intros Hinv.
  destruct (add_to_cart pid q st) as [[c|e] st'] eqn:E.
  - rewrite add_to_cart_eq in E.
    destruct (products st !! pid) as [l|] eqn:Hl; [|discriminate].
    destruct (decide (q <= 0)); [discriminate|].
    destruct (decide (Product.stock (heap st l) < q)); [discriminate|].
    cbv zeta in E.
    destruct (Cart.sum_amounts _ _) as [total|] eqn:Htotal; [|discriminate].
    injection E as <- <-. cbn [snd].
    apply (inv_after_add st pid q l); auto; lia.
  - apply add_to_cart_raises in E as ->; done.
Qed.

Lemma inv_set_discount_codes st ds : inv st -> inv (set_discount_codes ds st).
Proof. intros []. by split. Qed.

Lemma inv_clear_cart st : inv st -> inv (snd (clear_cart st)).
Proof.
  intros Hinv. rewrite clear_cart_eq. cbn [snd].
  split; cbn [products discount_nth_order order_counter orders cart heap
              set_heap set_cart Cart.items Cart.total_amount Cart.item_count Cart.new];
    try apply Hinv; try done.
  - apply NoDup_nil_2.
  - intros pid l Hl.
    rewrite (cart_quantity_absent pid []) by apply not_elem_of_nil.
    rewrite (restored_heap_stock _ _ _ pid l); [| |done].
    + destruct (inv_stock st Hinv _ _ Hl) as [Hs Hsum].
      pose proof (inv_products st Hinv) as Hp. rewrite Hp in Hl.
      pose proof (init_stock_bounds _ _ Hl). lia.
    + intros pid' Hl'. rewrite (inv_products st Hinv) in Hl, Hl'.
      eapply products_init_inj; eauto.
  - intros l. rewrite restored_heap_static. apply Hinv.
Qed.

Lemma inv_committed st order : inv st -> inv (committed order st).
Proof.
  intros Hinv.
  pose proof (inv_clear_cart st Hinv) as Hc. rewrite clear_cart_eq in Hc. cbn [snd] in Hc.
  destruct Hc as [H1 H2 H3 H4 H5 H6 H7 H8].
  split; try done.
  cbn [order_counter orders committed]. rewrite length_app, (inv_counter st Hinv).
  cbn [length]. lia.
Qed.

Lemma inv_checkout st request u t1 t2 :
  inv st -> inv (snd (checkout request u t1 t2 st)).
Proof.
  intros Hinv. rewrite checkout_eq.
  destruct (Cart.items (cart st)) as [|item its] eqn:Hits; [done|].
  cbv zeta.
  destruct (truthy _) as [code|].
  - destruct (list_find _ _) as [[i d]|]; [|done].
    cbn [snd]. by apply inv_committed, inv_set_discount_codes.
  - cbn [snd]. by apply inv_committed.
Qed.

Lemma inv_generate_discount_code st u now :
  inv st -> inv (snd (generate_discount_code u now st)).
Proof.
  intros Hinv. rewrite generate_discount_code_eq.
  repeat (destruct (decide _); [done|]).
  cbv zeta. cbn [snd]. by apply inv_set_discount_codes.
Qed.

Lemma inv_exec c st : inv st -> inv (exec c st).
Proof.
  destruct c; cbn [exec].
  - apply inv_add_to_cart.
  - done.
  - apply inv_clear_cart.
  - apply inv_checkout.
  - apply inv_generate_discount_code.
Qed.

Lemma inv_run cs st : inv st -> inv (run cs st).
Proof.
  revert st. induction cs as [|c cs IH]; intros st Hinv; [done|].
  cbn. apply IH, inv_exec, Hinv.
Qed.

Lemma inv_reachable cs : inv (run cs init).
Proof. apply inv_run, inv_init_state. Qed.

(** ** What no call changes *)

Lemma exec_products c st : products (exec c st) = products st.
Proof.
  destruct c as [pid q| | |request u t1 t2|u now]; cbn [exec].
  - rewrite add_to_cart_eq.
    destruct (products st !! pid) as [l|]; [|done].
    repeat (destruct (decide _); [done|]).
    cbv zeta. by destruct (Cart.sum_amounts _ _).
  - done.
  - by rewrite clear_cart_eq.
  - rewrite checkout_eq.
    destruct (Cart.items (cart st)); [done|]. cbv zeta.
    destruct (truthy _); [|done]. by destruct (list_find _ _) as [[??]|].
  - rewrite generate_discount_code_eq. by repeat (destruct (decide _); [done|]).
Qed.

Lemma exec_static c st l :
  static_fields (heap (exec c st) l) = static_fields (heap st l).
Proof.
  destruct c as [pid q| | |request u t1 t2|u now]; cbn [exec].
  - rewrite add_to_cart_eq.
    destruct (products st !! pid) as [l0|]; [|done].
    repeat (destruct (decide _); [done|]).
    cbv zeta. destruct (Cart.sum_amounts _ _); cbn [snd heap set_heap];
      by apply heap_update_static.
  - done.
  - rewrite clear_cart_eq. cbn [snd heap set_heap set_cart]. apply restored_heap_static.
  - rewrite checkout_eq.
    destruct (Cart.items (cart st)) eqn:E; [done|]. cbv zeta.
    destruct (truthy _); [destruct (list_find _ _) as [[??]|]; [|done]|];
      cbn [snd heap committed]; apply restored_heap_static.
  - rewrite generate_discount_code_eq. by repeat (destruct (decide _); [done|]).
Qed.

Lemma run_app cs1 cs2 st : run (cs1 ++ cs2) st = run cs2 (run cs1 st).
Proof. apply fold_left_app. Qed.

Lemma run_products cs st : products (run cs st) = products st.
Proof.
  revert st. induction cs as [|c cs IH]; intros st; [done|].
  cbn. by rewrite IH, exec_products.
Qed.

Lemma run_static cs st l : static_fields (heap (run cs st) l) = static_fields (heap st l).
Proof.
  revert st. induction cs as [|c cs IH]; intros st; [done|].
  cbn. by rewrite IH, exec_static.
Qed.

(** ** The claims *)

(** C10.  [add_to_cart] checks that the product exists, then that the
    quantity is positive, then that the stock suffices: an unknown product
    is reported as not found whatever the quantity, a known product with a
    quantity of zero or less is reported as a bad quantity whatever its
    stock, and a positive quantity above the stock as insufficient stock.
    Each of these failures leaves the whole state as it was, and in a state
    the engine can reach these are the only failures. *)
Theorem add_to_cart_checks_in_order
    (st : EcommerceService) (product_id : string) (quantity : Z) :
  (products st !! product_id = None ->
   add_to_cart product_id quantity st
   = (Raise (ValueError (ProductNotFound product_id)), st))
  /\ (forall l, products st !! product_id = Some l -> quantity <= 0 ->
      add_to_cart product_id quantity st
      = (Raise (ValueError QuantityNotPositive), st))
  /\ (forall l, products st !! product_id = Some l -> 0 < quantity ->
      Product.stock (heap st l) < quantity ->
      add_to_cart product_id quantity st
      = (Raise (ValueError (InsufficientStock (Product.stock (heap st l)))), st))
  /\ (forall cs e, st = run cs init ->
      fst (add_to_cart product_id quantity st) = Raise e ->
      snd (add_to_cart product_id quantity st) = st
      /\ (e = ValueError (ProductNotFound product_id)
          \/ e = ValueError QuantityNotPositive
          \/ exists available, e = ValueError (InsufficientStock available))).
Proof.
  split_and!.
  - intros Hl. by rewrite add_to_cart_eq, Hl.
  - intros l Hl Hq. by rewrite add_to_cart_eq, Hl, decide_True.
  - intros l Hl Hq Hs.
    by rewrite add_to_cart_eq, Hl, decide_False, decide_True by lia.
  - intros cs e -> Hraise.
    destruct (add_to_cart product_id quantity (run cs init)) as [r st'] eqn:E.
    cbn [fst snd] in *. subst r.
    split; [by eapply add_to_cart_raises; [apply inv_reachable|]|].
    rewrite add_to_cart_eq in E.
    destruct (products (run cs init) !! product_id) as [l|] eqn:Hl;
      [|injection E as <- _; by left].
    destruct (decide (quantity <= 0)); [injection E as <- _; by right; left|].
    destruct (decide (Product.stock (heap (run cs init) l) < quantity));
      [injection E as <- _; right; right; by eexists|].
    destruct (add_to_cart_ok (run cs init) product_id quantity l)
      as (total & Htotal & _); [apply inv_reachable|done|lia..|].
    cbv zeta in E. rewrite Htotal in E. discriminate.
Qed.

Lemma add_to_cart_checks_in_order_witness :
  add_to_cart "nope" 0 init = (Raise (ValueError (ProductNotFound "nope")), init)
  /\ add_to_cart "prod_001" (-1) negative_stock
     = (Raise (ValueError QuantityNotPositive), negative_stock)
  /\ add_to_cart "prod_001" 51 init
     = (Raise (ValueError (InsufficientStock (Product.stock (heap init 0%nat)))), init)
  /\ Product.stock (heap init 0%nat) = 50
  /\ snd (add_to_cart "prod_001" 51 (run one_order init)) = run one_order init.
Proof.
  assert (H1 : products init !! "nope"%string = None) by (vm_compute; reflexivity).
  assert (H2 : products negative_stock !! "prod_001"%string = Some 0%nat)
    by (vm_compute; reflexivity).
  assert (H3 : products init !! "prod_001"%string = Some 0%nat)
    by (vm_compute; reflexivity).
  assert (H4 : Product.stock (heap init 0%nat) < 51) by (vm_compute; reflexivity).
  assert (H5 : fst (add_to_cart "prod_001" 51 (run one_order init))
               = Raise (ValueError (InsufficientStock 50)))
    by (vm_compute; reflexivity).
  split_and!.
  - exact (proj1 (add_to_cart_checks_in_order init "nope" 0) H1).
  - apply (proj1 (proj2 (add_to_cart_checks_in_order negative_stock "prod_001" (-1)))
             0%nat H2). lia.
  - apply (proj1 (proj2 (proj2 (add_to_cart_checks_in_order init "prod_001" 51)))
             0%nat H3); [lia|exact H4].
  - vm_compute; reflexivity.
  - exact (proj1 (proj2 (proj2 (proj2
             (add_to_cart_checks_in_order (run one_order init) "prod_001" 51)))
             one_order _ eq_refl H5)).
Defined.

Lemma exec_orders c st :
  (orders (exec c st) = orders st /\ order_counter (exec c st) = order_counter st)
  \/ (exists request u t1 t2 order,
        c = Checkout request u t1 t2
        /\ orders (exec c st) = orders st ++ [order]
        /\ order_counter (exec c st) = order_counter st + 1).
Proof.
  destruct c as [pid q| | |request u t1 t2|u now]; cbn [exec].
  - left. rewrite add_to_cart_eq.
    destruct (products st !! pid) as [l|]; [|done].
    repeat (destruct (decide _); [done|]).
    cbv zeta. by destruct (Cart.sum_amounts _ _).
  - by left.
  - left. by rewrite clear_cart_eq.
  - rewrite checkout_eq.
    destruct (Cart.items (cart st)); [by left|]. cbv zeta.
    destruct (truthy _); [destruct (list_find _ _) as [[??]|]; [|by left]|];
      right; by repeat eexists.
  - left. rewrite generate_discount_code_eq. by repeat (destruct (decide _); [done|]).
Qed.

(** C9.  The order counter and the order history start at zero and empty,
    only a checkout changes them, by one order and one count together, and
    so in every state the engine reaches the counter is the length of the
    history; generating a discount code succeeds there exactly when the
    number of orders is a positive multiple of five. *)
Theorem order_counter_is_history_length (cs : list call) :
  let st := run cs init in
  order_counter init = 0 /\ orders init = []
  /\ (forall c st0,
        (orders (exec c st0) = orders st0
         /\ order_counter (exec c st0) = order_counter st0)
        \/ (exists request u t1 t2 order,
              c = Checkout request u t1 t2
              /\ orders (exec c st0) = orders st0 ++ [order]
              /\ order_counter (exec c st0) = order_counter st0 + 1))
  /\ order_counter st = Z.of_nat (length (orders st))
  /\ discount_nth_order st = 5
  /\ (forall u now,
        (exists d st', generate_discount_code u now st = (Ok d, st'))
        <-> (0 < length (orders st))%nat
            /\ Z.of_nat (length (orders st)) mod 5 = 0).
Proof.
  intros st. pose proof (inv_reachable cs) as Hinv. fold st in Hinv.
  split_and!; try done.
  - apply exec_orders.
  - apply Hinv.
  - apply Hinv.
  - intros u now. rewrite generate_discount_code_eq.
    rewrite (inv_nth st Hinv), <-(inv_counter st Hinv).
    pose proof (inv_counter st Hinv) as Hc.
    destruct (decide (order_counter st = 0)) as [H0|H0].
    { split; [by intros (? & ? & ?)|]. intros [Hlen _]. lia. }
    rewrite decide_False by done.
    destruct (decide (order_counter st mod 5 <> 0)) as [Hm|Hm].
    { split; [by intros (? & ? & ?)|]. intros [_ ?]. done. }
    split; [|by eauto]. intros _. split; lia.
Qed.

(** C6.  In every state the engine reaches, that is after every sequence
    of [add_to_cart], [clear_cart], [checkout] and the other calls, the
    cart's [total_amount] is the sum of quantity times price over its
    current lines and its [item_count] is the sum of their quantities. *)
Theorem cart_totals_are_derived (cs : list call) :
  let st := run cs init in
  Cart.sum_amounts (heap st) (Cart.items (cart st))
    = Some (Cart.total_amount (cart st))
  /\ Cart.item_count (cart st) = Cart.sum_quantities (Cart.items (cart st)).
Proof. intros st. apply (inv_totals st), inv_reachable. Qed.

(** C7.  In every state the engine reaches the cart has at most one line
    per product; a successful [add_to_cart] for a product that has a line
    adds the quantity to that line and leaves the number of lines as it
    was, and for a product without a line it appends exactly one line. *)
Theorem one_line_per_product (cs : list call) (product_id : string) (quantity : Z) :
  let st := run cs init in
  let its := Cart.items (cart st) in
  NoDup (map CartItem.product_id its)
  /\ (forall c, fst (add_to_cart product_id quantity st) = Ok c ->
       cart (exec (AddToCart product_id quantity) st) = c
       /\ (product_id ∈ map CartItem.product_id its ->
           exists i item,
             its !! i = Some item
             /\ CartItem.product_id item = product_id
             /\ Cart.items c
                = <[i := CartItem.set_quantity (CartItem.quantity item + quantity) item]> its
             /\ length (Cart.items c) = length its)
       /\ (product_id ∉ map CartItem.product_id its ->
           exists l,
             products st !! product_id = Some l
             /\ Cart.items c = its ++ [CartItem.mk product_id quantity l])).
Proof.
  intros st its. split; [apply (inv_nodup st), inv_reachable|].
  intros c Hadd. cbn [exec]. rewrite add_to_cart_eq in Hadd |- *.
  destruct (products st !! product_id) as [l|] eqn:Hl; [|discriminate].
  repeat (destruct (decide _); [discriminate|]).
  cbv zeta in Hadd |- *.
  destruct (Cart.sum_amounts _ _) as [total|]; [|discriminate].
  cbn [fst snd] in *. injection Hadd as <-. split; [done|].
  cbn [Cart.items]. fold its. unfold added_items. split.
  - intros Hin.
    destruct (find_existing_item product_id its) as [[i item]|] eqn:E.
    + apply find_existing_item_Some in E as [Hi Hpid].
      exists i, item. split_and!; try done. by rewrite length_insert.
    + by apply find_existing_item_None in E.
  - intros Hnin. apply find_existing_item_None in Hnin. rewrite Hnin. by exists l.
Qed.

Lemma one_line_per_product_witness :
  let st := run [AddToCart "prod_001" 1] init in
  let c := Cart.mk [CartItem.mk "prod_001" 3 0%nat] (Float.of_ratio 59997 100) 3 in
  Cart.items (cart st) = [CartItem.mk "prod_001" 1 0%nat]
  /\ fst (add_to_cart "prod_001" 2 st) = Ok c
  /\ exists i item,
       Cart.items (cart st) !! i = Some item
       /\ CartItem.product_id item = "prod_001"%string
       /\ Cart.items c
          = <[i := CartItem.set_quantity (CartItem.quantity item + 2) item]>
              (Cart.items (cart st))
       /\ length (Cart.items c) = length (Cart.items (cart st)).
Proof.
  intros st c.
  assert (H1 : Cart.items (cart st) = [CartItem.mk "prod_001" 1 0%nat])
    by (vm_compute; reflexivity).
  assert (H2 : fst (add_to_cart "prod_001" 2 st) = Ok c) by (vm_compute; reflexivity).
  split; [exact H1|]. split; [exact H2|].
  apply (proj1 (proj2 (proj2 (one_line_per_product [AddToCart "prod_001" 1]
                                "prod_001" 2) c H2))).
  fold st. rewrite H1. apply list_elem_of_here.
Defined.

(** C2.  Along every sequence of [add_to_cart] and [clear_cart] calls,
    for every product of the catalog, its stock plus the quantity of it
    held in the cart stays equal to its initial stock; each successful add
    of the product lowers its stock by the quantity added and raises the
    cart quantity by as much, and each clear gives the whole cart quantity
    back to the stock and leaves the cart empty. *)
Theorem stock_plus_cart_is_constant
    (cs : list call) (product_id : string) (l : loc) :
  Forall is_add_or_clear cs ->
  products init !! product_id = Some l ->
  let st := run cs init in
  products st !! product_id = Some l
  /\ Product.stock (heap st l) + cart_quantity product_id (Cart.items (cart st))
     = Product.stock (heap init l)
  /\ (forall quantity c,
        fst (add_to_cart product_id quantity st) = Ok c ->
        let st' := exec (AddToCart product_id quantity) st in
        Product.stock (heap st' l) = Product.stock (heap st l) - quantity
        /\ cart_quantity product_id (Cart.items (cart st'))
           = cart_quantity product_id (Cart.items (cart st)) + quantity)
  /\ (let st' := exec ClearCart st in
      fst (clear_cart st) = Ok tt
      /\ Product.stock (heap st' l)
         = Product.stock (heap st l)
           + cart_quantity product_id (Cart.items (cart st))
      /\ Cart.items (cart st') = []).
Proof.
  intros _ Hl st. pose proof (inv_reachable cs) as Hinv. fold st in Hinv.
  assert (Hl' : products st !! product_id = Some l)
    by (by rewrite (inv_products st Hinv)).
  split_and!; [done|by apply (inv_stock st Hinv)| |].
  - intros quantity c Hadd. cbn [exec]. rewrite add_to_cart_eq, Hl' in Hadd |- *.
    repeat (destruct (decide _); [discriminate|]).
    cbv zeta in Hadd |- *.
    destruct (Cart.sum_amounts _ _) as [total|]; [|discriminate].
    cbn [snd heap set_heap cart set_cart Cart.items].
    rewrite heap_update_eq, added_items_cart_quantity, decide_True by done.
    done.
  - cbn [exec]. rewrite clear_cart_eq.
    cbn [fst snd heap set_heap cart set_cart Cart.items Cart.new].
    split_and!; [done| |done].
    apply restored_heap_stock; [|done].
    intros pid' Hpid'. rewrite (inv_products st Hinv) in Hpid'.
    by eapply products_init_inj.
Qed.

Lemma stock_plus_cart_is_constant_witness :
  let cs := [AddToCart "prod_001" 2; ClearCart; AddToCart "prod_001" 3;
             AddToCart "prod_002" 1] in
  let st := run cs init in
  let c := Cart.mk [CartItem.mk "prod_001" 7 0%nat; CartItem.mk "prod_002" 1 1%nat]
             (Float.of_ratio 142492 100) 8 in
  Product.stock (heap st 0%nat) = 47
  /\ cart_quantity "prod_001" (Cart.items (cart st)) = 3
  /\ Product.stock (heap st 0%nat)
     + cart_quantity "prod_001" (Cart.items (cart st))
     = Product.stock (heap init 0%nat)
  /\ fst (add_to_cart "prod_001" 4 st) = Ok c
  /\ Product.stock (heap (exec (AddToCart "prod_001" 4) st) 0%nat)
     = Product.stock (heap st 0%nat) - 4
  /\ Product.stock (heap (exec ClearCart st) 0%nat)
     = Product.stock (heap st 0%nat)
       + cart_quantity "prod_001" (Cart.items (cart st)).
Proof.
  intros cs st c.
  assert (H : products init !! "prod_001"%string = Some 0%nat)
    by (vm_compute; reflexivity).
  assert (Hcs : Forall is_add_or_clear cs) by (repeat constructor).
  assert (Hadd : fst (add_to_cart "prod_001" 4 st) = Ok c)
    by (vm_compute; reflexivity).
  destruct (stock_plus_cart_is_constant cs "prod_001" 0%nat Hcs H)
    as (_ & Hsum & Hstep & _ & Hclear & _).
  split; [vm_compute; reflexivity|]. split; [vm_compute; reflexivity|].
  split; [exact Hsum|]. split; [exact Hadd|].
  split; [exact (proj1 (Hstep 4 c Hadd))|exact Hclear].
Defined.

(** C4.  With N = 5, [generate_discount_code] fails exactly when the order
    counter is zero or is not a multiple of five, and then with the
    not-eligible error and no change of state.  When it succeeds it appends
    exactly one code, at 10 percent and unused, and changes nothing else;
    the order counter in particular stays, so the next call succeeds again
    and appends one more code. *)
Theorem generate_discount_code_eligibility
    (st : EcommerceService) (uuid4_hex : string) (now : datetime) :
  discount_nth_order st = 5 ->
  ((exists e, fst (generate_discount_code uuid4_hex now st) = Raise e)
   <-> order_counter st = 0 \/ order_counter st mod 5 <> 0)
  /\ (forall e, fst (generate_discount_code uuid4_hex now st) = Raise e ->
        e = ValueError NotEligible
        /\ snd (generate_discount_code uuid4_hex now st) = st)
  /\ (forall d, fst (generate_discount_code uuid4_hex now st) = Ok d ->
        let st' := exec (GenerateDiscountCode uuid4_hex now) st in
        discount_codes st' = discount_codes st ++ [d]
        /\ DiscountCode.discount_percentage d = Float.of_ratio 10 1
        /\ DiscountCode.is_used d = false
        /\ cart st' = cart st /\ orders st' = orders st
        /\ products st' = products st /\ heap st' = heap st
        /\ order_counter st' = order_counter st
        /\ discount_nth_order st' = discount_nth_order st
        /\ forall uuid4_hex' now', exists d',
             fst (generate_discount_code uuid4_hex' now' st') = Ok d'
             /\ discount_codes (exec (GenerateDiscountCode uuid4_hex' now') st')
                = discount_codes st ++ [d; d']).
Proof.
  intros HN. cbn [exec]. rewrite generate_discount_code_eq, HN.
  destruct (decide (order_counter st = 0)) as [H0|H0].
  { split_and!.
    - split; [by left|]. by eauto.
    - by intros e [= <-].
    - by intros d [=]. }
  rewrite decide_False by done.
  destruct (decide (order_counter st mod 5 <> 0)) as [Hm|Hm].
  { split_and!.
    - split; [by right|]. by eauto.
    - by intros e [= <-].
    - by intros d [=]. }
  cbv zeta. cbn [fst snd]. split_and!.
  - split; [by intros (? & [=])|]. by intros [?|?].
  - by intros e [=].
  - intros d [= <-]. split_and!; try done.
    intros u' now'. rewrite generate_discount_code_eq.
    cbn [order_counter discount_nth_order set_discount_codes discount_codes].
    rewrite HN, !decide_False by done. cbv zeta.
    eexists. split; [done|]. cbn [snd discount_codes set_discount_codes].
    by rewrite <-app_assoc.
Qed.

Lemma generate_discount_code_eligibility_witness :
  let st := run five_orders init in
  let d := DiscountCode.new code_a 20 in
  order_counter st = 5
  /\ fst (generate_discount_code uuid_a 20 st) = Ok d
  /\ discount_codes (exec (GenerateDiscountCode uuid_a 20) st)
     = discount_codes st ++ [d]
  /\ order_counter (exec (GenerateDiscountCode uuid_a 20) st) = order_counter st.
Proof.
  intros st d.
  assert (HN : discount_nth_order st = 5) by (vm_compute; reflexivity).
  assert (Hd : fst (generate_discount_code uuid_a 20 st) = Ok d)
    by (vm_compute; reflexivity).
  destruct (proj2 (proj2 (generate_discount_code_eligibility st uuid_a 20 HN)) d Hd)
    as (H1 & _ & _ & _ & _ & _ & _ & H2 & _).
  split; [vm_compute; reflexivity|]. split; [exact Hd|]. split; [exact H1|exact H2].
Defined.

(** C5.  In every successful checkout the total is the cart's total at
    that time; when a discount code is applied the discount is the total
    times the code's percentage over 100, rounded to 3 decimals, and
    otherwise it is 0; the final amount is the total minus the discount,
    rounded to 3 decimals; and the order appended carries the same three
    amounts.  A 10 percent code on a total of 199.99 gives a discount of
    19.999 and a final amount of 179.991. *)
Theorem checkout_amounts :
  (forall (st : EcommerceService) (request : CheckoutRequest.t)
          (uuid4_hex : string) (now_used now_created : datetime)
          (response : CheckoutResponse.t),
     fst (checkout request uuid4_hex now_used now_created st) = Ok response ->
     let st' := exec (Checkout request uuid4_hex now_used now_created) st in
     let total := Cart.total_amount (cart st) in
     let discount := CheckoutResponse.discount_amount response in
     CheckoutResponse.total_amount response = total
     /\ match CheckoutResponse.discount_code response with
        | Some code =>
          exists i d,
            list_find (fun d => DiscountCode.code d = code
                                /\ DiscountCode.is_used d = false)
              (discount_codes st) = Some (i, d)
            /\ discount
               = Float.round
                   (Float.mul total
                      (Float.div (DiscountCode.discount_percentage d)
                         (Float.of_ratio 100 1))) 3
        | None => discount = Float.zero
        end
     /\ CheckoutResponse.final_amount response
        = Float.round (Float.sub total discount) 3
     /\ exists order,
          orders st' = orders st ++ [order]
          /\ Order.total_amount order = total
          /\ Order.discount_amount order = discount
          /\ Order.final_amount order = CheckoutResponse.final_amount response)
  /\ (let total := Float.of_ratio 19999 100 in
      let discount :=
        Float.round
          (Float.mul total (Float.div (Float.of_ratio 10 1) (Float.of_ratio 100 1))) 3 in
      discount = Float.of_ratio 19999 1000
      /\ Float.round (Float.sub total discount) 3 = Float.of_ratio 179991 1000).
Proof.
  split; [|vm_compute; split; reflexivity].
  intros st request u t1 t2 response Hc st' total discount.
  subst st' discount. cbn [exec]. rewrite checkout_eq in Hc |- *.
  destruct (Cart.items (cart st)) as [|item its]; [discriminate|].
  cbv zeta in Hc |- *. fold total.
  destruct (truthy _) as [code|].
  - destruct (list_find _ _) as [[i d]|] eqn:Hfind; [|discriminate].
    cbn [fst snd] in *. injection Hc as <-.
    unfold response_of, order_of, committed, discount_for.
    cbn [CheckoutResponse.total_amount CheckoutResponse.discount_amount
         CheckoutResponse.final_amount CheckoutResponse.discount_code
         orders set_discount_codes].
    split_and!; try reflexivity.
    + by exists i, d.
    + eexists. split; [reflexivity|]. split_and!; reflexivity.
  - cbn [fst snd] in *. injection Hc as <-.
    unfold response_of, order_of, committed.
    cbn [CheckoutResponse.total_amount CheckoutResponse.discount_amount
         CheckoutResponse.final_amount CheckoutResponse.discount_code orders].
    split_and!; try reflexivity.
    eexists. split; [reflexivity|]. split_and!; reflexivity.
Qed.

Lemma checkout_amounts_witness :
  let st := run cart_and_code init in
  let response :=
    CheckoutResponse.mk "order_3f2a9c1e" (Float.of_ratio 19999 100)
      (Float.of_ratio 19999 1000) (Float.of_ratio 179991 1000) (Some code_a)
      "Order placed successfully!" in
  Cart.total_amount (cart st) = Float.of_ratio 19999 100
  /\ fst (checkout with_code_a uuid_a 30 31 st) = Ok response
  /\ CheckoutResponse.final_amount response
     = Float.round
         (Float.sub (Cart.total_amount (cart st))
            (CheckoutResponse.discount_amount response)) 3.
Proof.
  intros st response.
  assert (H : fst (checkout with_code_a uuid_a 30 31 st) = Ok response)
    by (vm_compute; reflexivity).
  split; [vm_compute; reflexivity|]. split; [exact H|].
  exact (proj1 (proj2 (proj2
           (proj1 checkout_amounts st with_code_a uuid_a 30 31 response H)))).
Defined.

Lemma not_usable_code_find code (ds : list DiscountCode.t) :
  ~ usable_code code ds ->
  list_find (fun d => DiscountCode.code d = code /\ DiscountCode.is_used d = false) ds
  = None.
Proof.
  intros Hno. apply list_find_None, Forall_forall.
  intros d Hin [Hc Hu]. apply Hno. by exists d.
Qed.

Lemma truthy_nonempty code : code <> ""%string -> truthy (Some code) = Some code.
Proof. by destruct code. Qed.

Lemma checkout_raises st request u t1 t2 e :
  fst (checkout request u t1 t2 st) = Raise e ->
  snd (checkout request u t1 t2 st) = st.
Proof.
  rewrite checkout_eq.
  destruct (Cart.items (cart st)); [done|]. cbv zeta.
  destruct (truthy _); [|done]. by destruct (list_find _ _) as [[??]|].
Qed.

(** C3, amended.  [checkout] on an empty cart fails with the empty-cart
    error, and [checkout] with a discount code other than the empty string
    that is unknown or used (no unused entry of the code list carries it)
    fails with an error; whenever [checkout] fails, the whole state, that is
    the cart, the stocks, the order history, the order counter and the
    discount codes, is left as it was, so no order is created. *)
Theorem checkout_fails_atomically
    (st : EcommerceService) (request : CheckoutRequest.t)
    (uuid4_hex : string) (now_used now_created : datetime) :
  (Cart.items (cart st) = [] ->
   checkout request uuid4_hex now_used now_created st
   = (Raise (ValueError EmptyCart), st))
  /\ (forall code, CheckoutRequest.discount_code request = Some code ->
        code <> ""%string ->
        ~ usable_code code (discount_codes st) ->
        exists e,
          checkout request uuid4_hex now_used now_created st = (Raise e, st)
          /\ (e = ValueError EmptyCart \/ e = ValueError InvalidDiscountCode))
  /\ (forall e,
        fst (checkout request uuid4_hex now_used now_created st) = Raise e ->
        snd (checkout request uuid4_hex now_used now_created st) = st).
Proof.
  split_and!.
  - intros Hempty. by rewrite checkout_eq, Hempty.
  - intros code Hcode Hne Hno. rewrite checkout_eq.
    destruct (Cart.items (cart st)); [by eauto|]. cbv zeta.
    rewrite Hcode, truthy_nonempty, not_usable_code_find by done. by eauto.
  - apply checkout_raises.
Qed.

Lemma checkout_fails_atomically_witness :
  let st := run cart_and_used_code init in
  let bogus := CheckoutRequest.mk (Some "BOGUS"%string) None in
  checkout no_discount uuid_a 40 41 init = (Raise (ValueError EmptyCart), init)
  /\ (exists e, checkout bogus uuid_a 40 41 st = (Raise e, st)
        /\ (e = ValueError EmptyCart \/ e = ValueError InvalidDiscountCode))
  /\ map DiscountCode.is_used (discount_codes st) = [true]
  /\ (exists e, checkout with_code_a uuid_a 40 41 st = (Raise e, st)
        /\ (e = ValueError EmptyCart \/ e = ValueError InvalidDiscountCode)).
Proof.
  intros st bogus.
  assert (Hds : discount_codes st
                = [DiscountCode.mark_used 30 (DiscountCode.new code_a 20)])
    by (vm_compute; reflexivity).
  split_and!.
  - apply (proj1 (checkout_fails_atomically init no_discount uuid_a 40 41)).
    vm_compute; reflexivity.
  - apply (proj1 (proj2 (checkout_fails_atomically st bogus uuid_a 40 41))
             "BOGUS"%string); [reflexivity|discriminate|].
    rewrite Hds. intros (d & Hin & Hc & _).
    apply list_elem_of_singleton in Hin as ->. discriminate Hc.
  - rewrite Hds. reflexivity.
  - apply (proj1 (proj2 (checkout_fails_atomically st with_code_a uuid_a 40 41))
             code_a); [reflexivity|discriminate|].
    rewrite Hds. intros (d & Hin & _ & Hu).
    apply list_elem_of_singleton in Hin as ->. discriminate Hu.
Defined.

(** C3 as stated fails: with one line in the cart and no discount code
    ever generated, a request carrying the empty string as its code does not
    fail; the order is placed without a discount. *)
Lemma checkout_with_empty_code_succeeds :
  let st := run [AddToCart "prod_001" 1] init in
  CheckoutRequest.discount_code with_empty_code = Some ""%string
  /\ discount_codes st = []
  /\ orders st = []
  /\ fst (checkout with_empty_code uuid_a 40 41 st)
     = Ok (CheckoutResponse.mk "order_3f2a9c1e" (Float.of_ratio 19999 100) Float.zero
             (Float.of_ratio 19999 100) None "Order placed successfully!")
  /\ length (orders (exec (Checkout with_empty_code uuid_a 40 41) st)) = 1%nat
  /\ Cart.items (cart (exec (Checkout with_empty_code uuid_a 40 41) st)) = [].
Proof. vm_compute. repeat split. Qed.

(** C8, amended.  The product embedded in a cart line is the catalog's own
    product object, held by reference and not copied: a line appended by a
    successful [add_to_cart] refers to the object the catalog binds to the
    product id, and the catalog still binds the id to that object after any
    later calls.  Reading the embedded product therefore gives the live
    catalog product: right after the add its stock is already the stock
    before the add minus the quantity added.  Its other fields (id, name,
    description, price, category, image) stay what they were at the add,
    since no call changes them.  A checkout carries the cart lines, with the
    same references, into the order. *)
Theorem embedded_product_is_catalog_object
    (st : EcommerceService) (cs : list call)
    (product_id : string) (quantity : Z) (c : Cart.t) :
  product_id ∉ map CartItem.product_id (Cart.items (cart st)) ->
  fst (add_to_cart product_id quantity st) = Ok c ->
  let st1 := exec (AddToCart product_id quantity) st in
  let st2 := run cs st1 in
  exists l,
    products st !! product_id = Some l
    /\ Cart.items c
       = Cart.items (cart st) ++ [CartItem.mk product_id quantity l]
    /\ products st2 !! product_id = Some l
    /\ Product.stock (heap st1 l) = Product.stock (heap st l) - quantity
    /\ static_fields (heap st2 l) = static_fields (heap st l)
    /\ (forall request u t1 t2 response,
          fst (checkout request u t1 t2 st2) = Ok response ->
          exists order,
            orders (exec (Checkout request u t1 t2) st2) = orders st2 ++ [order]
            /\ Order.items order = Cart.items (cart st2)).
Proof.
  intros Hnin Hadd st1 st2.
  assert (Hst1 : st1 = snd (add_to_cart product_id quantity st)) by done.
  rewrite add_to_cart_eq in Hadd, Hst1.
  destruct (products st !! product_id) as [l|] eqn:Hl; [|discriminate].
  repeat (destruct (decide _); [discriminate|]).
  cbv zeta in Hadd, Hst1.
  destruct (Cart.sum_amounts _ _) as [total|]; [|discriminate].
  cbn [fst snd] in *. injection Hadd as <-.
  exists l. split_and!.
  - done.
  - cbn [Cart.items]. unfold added_items.
    by rewrite (proj2 (find_existing_item_None _ _) Hnin).
  - subst st2. rewrite run_products. rewrite Hst1. exact Hl.
  - rewrite Hst1. cbn [heap set_heap]. by rewrite heap_update_eq.
  - subst st2. rewrite run_static, Hst1. cbn [heap set_heap].
    by apply heap_update_static.
  - intros request u t1 t2 response Hc. cbn [exec].
    rewrite checkout_eq in Hc |- *.
    destruct (Cart.items (cart st2)) as [|item its]; [discriminate|].
    cbv zeta in Hc |- *.
    destruct (truthy _); [destruct (list_find _ _) as [[??]|]; [|discriminate]|];
      cbn [snd committed orders set_discount_codes]; by eexists.
Qed.

Lemma embedded_product_is_catalog_object_witness :
  let c := Cart.mk [CartItem.mk "prod_001" 2 0%nat] (Float.of_ratio 39998 100) 2 in
  let st1 := exec (AddToCart "prod_001" 2) init in
  let st2 := run [AddToCart "prod_001" 1] st1 in
  fst (add_to_cart "prod_001" 2 init) = Ok c
  /\ exists l,
       products init !! "prod_001"%string = Some l
       /\ Cart.items c = Cart.items (cart init) ++ [CartItem.mk "prod_001" 2 l]
       /\ products st2 !! "prod_001"%string = Some l
       /\ Product.stock (heap st1 l) = Product.stock (heap init l) - 2
       /\ static_fields (heap st2 l) = static_fields (heap init l).
Proof.
  intros c st1 st2.
  assert (H : fst (add_to_cart "prod_001" 2 init) = Ok c) by (vm_compute; reflexivity).
  split; [exact H|].
  destruct (embedded_product_is_catalog_object init [AddToCart "prod_001" 1]
              "prod_001" 2 c) as (l & H1 & H2 & H3 & H4 & H5 & _).
  - vm_compute. apply not_elem_of_nil.
  - exact H.
  - exists l. split_and!; assumption.
Defined.

(** C8 as stated fails: the stock read through the product embedded in a
    cart line, and later in the order line, is not frozen at the add.  The
    headphones have a stock of 50 when the line is created; through the
    line the stock reads 48 once the add has returned and 47 after one more
    is added, and through the line of the order it reads 50 after the
    checkout and 45 after five more are put in the next cart. *)
Lemma embedded_product_follows_catalog :
  let st1 := exec (AddToCart "prod_001" 2) init in
  let st2 := exec (AddToCart "prod_001" 1) st1 in
  let st3 := exec (Checkout no_discount uuid_a 10 11) st2 in
  let st4 := exec (AddToCart "prod_001" 5) st3 in
  let embedded st its := map (fun item => Product.stock (heap st (CartItem.product item))) its in
  Product.stock (heap init 0%nat) = 50
  /\ Cart.items (cart st1) = [CartItem.mk "prod_001" 2 0%nat]
  /\ embedded st1 (Cart.items (cart st1)) = [48]
  /\ embedded st2 (Cart.items (cart st2)) = [47]
  /\ map Order.items (orders st3) = [[CartItem.mk "prod_001" 3 0%nat]]
  /\ map (embedded st3) (map Order.items (orders st3)) = [[50]]
  /\ map (embedded st4) (map Order.items (orders st4)) = [[45]].
Proof. vm_compute. repeat split. Qed.

(** C1: the code at the failing input.  Two pairs of headphones are put in
    the cart (stock 50 at the start, 48 after the add) and the cart is
    checked out.  The checkout succeeds and empties the cart, and its final
    [clear_cart] gives the two units sold back to the catalog: the stock is
    50 again, not 48. *)
Theorem checkout_restores_sold_stock :
  let st1 := exec (AddToCart "prod_001" 2) init in
  let st2 := exec (Checkout no_discount uuid_a 10 11) st1 in
  products init !! "prod_001"%string = Some 0%nat
  /\ Product.stock (heap init 0%nat) = 50
  /\ Product.stock (heap st1 0%nat) = 48
  /\ cart_quantity "prod_001" (Cart.items (cart st1)) = 2
  /\ fst (checkout no_discount uuid_a 10 11 st1)
     = Ok (CheckoutResponse.mk "order_3f2a9c1e" (Float.of_ratio 39998 100) Float.zero
             (Float.of_ratio 39998 100) None "Order placed successfully!")
  /\ map Order.items (orders st2) = [[CartItem.mk "prod_001" 2 0%nat]]
  /\ Cart.items (cart st2) = []
  /\ Product.stock (heap st2 0%nat) = 50.
Proof. vm_compute. repeat split. Qed.

(** The same in general: after a successful checkout in a state the engine
    reaches, every product of the catalog is back at its initial stock. *)
Lemma checkout_leaves_initial_stock
    (cs : list call) (request : CheckoutRequest.t) (u : string) (t1 t2 : datetime)
    (response : CheckoutResponse.t) (product_id : string) (l : loc) :
  let st := run cs init in
  fst (checkout request u t1 t2 st) = Ok response ->
  products init !! product_id = Some l ->
  let st' := exec (Checkout request u t1 t2) st in
  Cart.items (cart st') = []
  /\ Product.stock (heap st' l) = Product.stock (heap init l).
Proof.
  intros st Hc Hl st'.
  assert (Hinv : inv st') by (apply inv_exec, inv_reachable).
  assert (Hempty : Cart.items (cart st') = []).
  { subst st'. cbn [exec]. rewrite checkout_eq in Hc |- *.
    destruct (Cart.items (cart st)); [discriminate|]. cbv zeta in Hc |- *.
    destruct (truthy _); [destruct (list_find _ _) as [[??]|]; [|discriminate]|];
      done. }
  split; [done|].
  rewrite <-(inv_products st' Hinv) in Hl.
  destruct (inv_stock st' Hinv _ _ Hl) as [_ Hsum].
  rewrite Hempty, (cart_quantity_absent product_id []) in Hsum
    by apply not_elem_of_nil.
  lia.
Qed.

(** * Further properties of the engine *)

(** ** Histories only grow *)

(** X1.  The order history is append-only and the order counter never goes
    down: after any sequence of calls from any state, the earlier history is
    a prefix of the later one, orders already placed are unchanged, and the
    counter has grown by exactly the number of orders added. *)
Theorem orders_append_only (cs : list call) (st : EcommerceService) :
  exists placed,
    orders (run cs st) = orders st ++ placed
    /\ order_counter (run cs st) = order_counter st + Z.of_nat (length placed).
Proof.
  revert st. induction cs as [|c cs IH]; intros st.
  - exists []. cbn. rewrite app_nil_r. split; [done|lia].
  - cbn [run fold_left]. fold (run cs (exec c st)).
    destruct (IH (exec c st)) as (placed & Ho & Hc).
    destruct (exec_orders c st) as [[Ho1 Hc1]|(? & ? & ? & ? & order & _ & Ho1 & Hc1)].
    + exists placed. by rewrite Ho, Hc, Ho1, Hc1.
    + exists (order :: placed). rewrite Ho, Hc, Ho1, Hc1, <-app_assoc.
      split; [done|]. cbn [length]. lia.
Qed.

(** ** The catalog *)

(** X2.  No call adds, removes or rebinds a catalog entry, and no call
    changes a product's id, name, description, price, category or image:
    after any sequence of calls from any state only stocks can differ. *)
Theorem catalog_is_immutable (cs : list call) (st : EcommerceService) (l : loc) :
  let p := heap st l in
  let p' := heap (run cs st) l in
  products (run cs st) = products st
  /\ Product.id p' = Product.id p
  /\ Product.name p' = Product.name p
  /\ Product.description p' = Product.description p
  /\ Product.price p' = Product.price p
  /\ Product.category p' = Product.category p
  /\ Product.image_url p' = Product.image_url p.
Proof.
  intros p p'. split; [apply run_products|].
  pose proof (run_static cs st l) as H. fold p p' in H.
  unfold static_fields, Product.set_stock in H.
  injection H as H1 H2 H3 H4 H5 H6. done.
Qed.

(** ** [clear_cart] *)

(** X3.  [clear_cart] never raises and always leaves the empty cart with
    zero totals; clearing twice is the same as clearing once, so a second
    clear gives no stock back a second time. *)
Theorem clear_cart_idempotent (st : EcommerceService) :
  fst (clear_cart st) = Ok tt
  /\ cart (exec ClearCart st) = Cart.new
  /\ exec ClearCart (exec ClearCart st) = exec ClearCart st.
Proof.
  cbn [exec]. rewrite !clear_cart_eq. cbn [fst snd]. split_and!; reflexivity.
Qed.

(** ** [generate_discount_code] for any N *)

(** X4.  For any value of [discount_nth_order]: with a counter of zero the
    call reports not-eligible; with a non-zero counter and N = 0 the modulo
    raises [ZeroDivisionError]; otherwise it succeeds exactly when the
    counter is a multiple of N.  A failing call changes nothing. *)
Theorem generate_discount_code_any_n
    (st : EcommerceService) (uuid4_hex : string) (now : datetime) :
  let r := fst (generate_discount_code uuid4_hex now st) in
  let counter := order_counter st in
  let n := discount_nth_order st in
  (r = Raise ZeroDivisionError <-> counter <> 0 /\ n = 0)
  /\ (r = Raise (ValueError NotEligible)
      <-> counter = 0 \/ (n <> 0 /\ counter mod n <> 0))
  /\ ((exists d, r = Ok d) <-> counter <> 0 /\ n <> 0 /\ counter mod n = 0)
  /\ (forall e, r = Raise e -> snd (generate_discount_code uuid4_hex now st) = st).
Proof.
  intros r counter n. subst r counter n. rewrite generate_discount_code_eq.
  destruct (decide (order_counter st = 0)) as [H0|H0]; cbn [fst snd].
  { split_and!; try done.
    - split; [done|]. by intros [? _].
    - split; [by left|done].
    - split; [by intros [? ?]|]. by intros [? _]. }
  destruct (decide (discount_nth_order st = 0)) as [HN|HN]; cbn [fst snd].
  { split_and!; try done.
    - split; [done|]. intros [?|[? _]]; done.
    - split; [by intros [? ?]|]. by intros (_ & ? & _). }
  destruct (decide (order_counter st mod discount_nth_order st <> 0)) as [Hm|Hm];
    cbv zeta; cbn [fst snd].
  { split_and!; try done.
    - split; [done|]. by intros [_ ?].
    - split; [by right|done].
    - split; [by intros [? ?]|]. by intros (_ & _ & ?). }
  split_and!; try done.
  - split; [done|]. by intros [_ ?].
  - split; [done|]. intros [?|[_ ?]]; done.
  - split; [|by eauto]. intros _. split_and!; try done.
    by destruct (decide (order_counter st mod discount_nth_order st = 0)).
Qed.

(** ** When the calls succeed *)

Lemma usable_code_find code (ds : list DiscountCode.t) :
  usable_code code ds <->
  exists i d,
    list_find (fun d => DiscountCode.code d = code /\ DiscountCode.is_used d = false) ds
    = Some (i, d).
Proof.
  split.
  - intros (d & Hin & Hc & Hu).
    destruct (list_find (fun d => DiscountCode.code d = code
                                  /\ DiscountCode.is_used d = false) ds)
      as [[i d']|] eqn:E; [by eauto|].
    apply list_find_None in E.
    by destruct (proj1 (Forall_forall _ _) E d Hin).
  - intros (i & d & (Hi & [Hc Hu] & _)%list_find_Some).
    exists d. split_and!; try done. by eapply list_elem_of_lookup_2.
Qed.

(** X5.  In any state [checkout] succeeds exactly when the cart has a line
    and the request carries no discount code, the empty string, or a code
    that some unused entry of the code list carries. *)
Theorem checkout_succeeds_iff
    (st : EcommerceService) (request : CheckoutRequest.t)
    (uuid4_hex : string) (now_used now_created : datetime) :
  (exists response,
     fst (checkout request uuid4_hex now_used now_created st) = Ok response)
  <-> Cart.items (cart st) <> []
      /\ (CheckoutRequest.discount_code request = None
          \/ CheckoutRequest.discount_code request = Some ""%string
          \/ exists code,
               CheckoutRequest.discount_code request = Some code
               /\ usable_code code (discount_codes st)).
Proof.
  rewrite checkout_eq.
  destruct (Cart.items (cart st)) as [|item its].
  { split; [by intros [? ?]|]. by intros [? _]. }
  cbv zeta.
  destruct (CheckoutRequest.discount_code request) as [[|a code]|] eqn:Hreq;
    cbn [truthy].
  - split; [|by eauto]. intros _. split; [done|]. by right; left.
  - destruct (list_find _ _) as [[i d]|] eqn:E; cbn [fst].
    + split; [|by eauto]. intros _. split; [done|]. right; right.
      eexists. split; [done|]. apply usable_code_find. by eauto.
    + split; [by intros [? ?]|]. intros [_ [?|[?|(code' & [= <-] & Hu)]]]; try done.
      apply usable_code_find in Hu as (i & d & Hf). congruence.
  - split; [|by eauto]. intros _. split; [done|]. by left.
Qed.

(** X6.  In every state the engine reaches, [add_to_cart] succeeds exactly
    when the product is in the catalog and the quantity is positive and at
    most the product's current stock. *)
Theorem add_to_cart_succeeds_iff
    (cs : list call) (product_id : string) (quantity : Z) :
  let st := run cs init in
  (exists c, fst (add_to_cart product_id quantity st) = Ok c)
  <-> exists l,
        products st !! product_id = Some l
        /\ 0 < quantity <= Product.stock (heap st l).
Proof.
  intros st. split.
  - intros [c Hadd]. rewrite add_to_cart_eq in Hadd.
    destruct (products st !! product_id) as [l|]; [|discriminate].
    repeat (destruct (decide _); [discriminate|]).
    exists l. split; [done|lia].
  - intros (l & Hl & Hq).
    destruct (add_to_cart_ok st product_id quantity l) as (total & _ & ->);
      [apply inv_reachable|done|lia..|].
    by eexists.
Qed.

(** X7.  A successful [add_to_cart] touches one product only: every other
    product object is left exactly as it was, and the quantity held in the
    cart for every other product id is unchanged. *)
Theorem add_to_cart_frame
    (st : EcommerceService) (product_id : string) (quantity : Z)
    (c : Cart.t) (l : loc) :
  fst (add_to_cart product_id quantity st) = Ok c ->
  products st !! product_id = Some l ->
  let st' := exec (AddToCart product_id quantity) st in
  (forall l', l' <> l -> heap st' l' = heap st l')
  /\ (forall product_id', product_id' <> product_id ->
        cart_quantity product_id' (Cart.items (cart st'))
        = cart_quantity product_id' (Cart.items (cart st)))
  /\ orders st' = orders st
  /\ discount_codes st' = discount_codes st
  /\ order_counter st' = order_counter st.
Proof.
  intros Hadd Hl st'. subst st'. cbn [exec]. rewrite add_to_cart_eq, Hl in Hadd |- *.
  repeat (destruct (decide _); [discriminate|]).
  cbv zeta in Hadd |- *.
  destruct (Cart.sum_amounts _ _) as [total|]; [|discriminate].
  cbn [snd heap set_heap cart set_cart Cart.items orders discount_codes order_counter].
  split_and!; try done.
  - intros l' Hne. by rewrite heap_update_ne.
  - intros pid' Hne. rewrite added_items_cart_quantity, decide_False by done. lia.
Qed.

Lemma add_to_cart_frame_witness :
  let st := run [AddToCart "prod_002" 3] init in
  let st' := exec (AddToCart "prod_001" 2) st in
  fst (add_to_cart "prod_001" 2 st) = Ok (cart st')
  /\ Cart.items (cart st')
     = [CartItem.mk "prod_002" 3 1%nat; CartItem.mk "prod_001" 2 0%nat]
  /\ heap st' 1%nat = heap st 1%nat
  /\ cart_quantity "prod_002" (Cart.items (cart st'))
     = cart_quantity "prod_002" (Cart.items (cart st)).
Proof.
  intros st st'.
  assert (H : fst (add_to_cart "prod_001" 2 st) = Ok (cart st'))
    by (vm_compute; reflexivity).
  assert (Hl : products st !! "prod_001"%string = Some 0%nat)
    by (vm_compute; reflexivity).
  destruct (add_to_cart_frame st "prod_001" 2 _ 0%nat H Hl) as (H1 & H2 & _).
  split; [exact H|]. split; [vm_compute; reflexivity|].
  split; [by apply H1|by apply H2].
Defined.

(** ** What holds in every state the engine reaches *)

(** X8.  The engine never oversells: in every state it reaches, for every
    product of the catalog, the stock is between zero and the initial stock,
    and the quantity held in the cart is at most the initial stock. *)
Theorem stock_stays_within_bounds (cs : list call) (product_id : string) (l : loc) :
  products init !! product_id = Some l ->
  let st := run cs init in
  0 <= Product.stock (heap st l) <= Product.stock (heap init l)
  /\ 0 <= cart_quantity product_id (Cart.items (cart st))
       <= Product.stock (heap init l).
Proof.
  intros Hl st. pose proof (inv_reachable cs) as Hinv. fold st in Hinv.
  rewrite <-(inv_products st Hinv) in Hl.
  destruct (inv_stock st Hinv _ _ Hl) as [Hs Hsum].
  assert (0 <= cart_quantity product_id (Cart.items (cart st))).
  { apply cart_quantity_nonneg. eapply Forall_impl; [apply (inv_items st Hinv)|].
    by intros ? [_ ?]. }
  lia.
Qed.

Lemma stock_stays_within_bounds_witness :
  let st := run [AddToCart "prod_003" 25; AddToCart "prod_003" 1] init in
  Product.stock (heap init 2%nat) = 25
  /\ 0 <= Product.stock (heap st 2%nat) <= Product.stock (heap init 2%nat)
  /\ 0 <= cart_quantity "prod_003" (Cart.items (cart st))
       <= Product.stock (heap init 2%nat).
Proof.
  intros st.
  assert (Hl : products init !! "prod_003"%string = Some 2%nat)
    by (vm_compute; reflexivity).
  split; [vm_compute; reflexivity|].
  exact (stock_stays_within_bounds
           [AddToCart "prod_003" 25; AddToCart "prod_003" 1] "prod_003" 2%nat Hl).
Defined.

Lemma init_product_id product_id l :
  products init !! product_id = Some l -> Product.id (heap init l) = product_id.
Proof.
  rewrite products_init_lookup. unfold catalog_list.
  rewrite !elem_of_cons, !elem_of_nil. intros H.
  repeat destruct H as [H|H]; by simplify_eq.
Qed.

(** X9.  In every state the engine reaches, every cart line has a positive
    quantity and names a product of the catalog, and the product embedded in
    the line is that very product: the catalog binds the line's product id
    to the embedded object, whose id is the line's product id. *)
Theorem cart_lines_are_valid (cs : list call) :
  let st := run cs init in
  Forall (fun item =>
            products st !! CartItem.product_id item = Some (CartItem.product item)
            /\ Product.id (heap st (CartItem.product item)) = CartItem.product_id item
            /\ 0 < CartItem.quantity item)
    (Cart.items (cart st)).
Proof.
  intros st. pose proof (inv_reachable cs) as Hinv. fold st in Hinv.
  eapply Forall_impl; [apply (inv_items st Hinv)|].
  intros item [Hl Hq]. split_and!; try done.
  pose proof (f_equal Product.id (run_static cs init (CartItem.product item))) as Hid.
  cbn in Hid. fold st in Hid. rewrite Hid. apply init_product_id.
  by rewrite <-(inv_products st Hinv).
Qed.

(** ** The discount codes *)

Lemma truthy_Some (s : option string) code :
  truthy s = Some code -> s = Some code /\ code <> ""%string.
Proof. destruct s as [[|a s']|]; cbn; intros [= <-]; done. Qed.

(** What one call does to the order history and the code list. *)
Lemma exec_history c st :
  (orders (exec c st) = orders st /\ discount_codes (exec c st) = discount_codes st)
  \/ (exists order,
        orders (exec c st) = orders st ++ [order]
        /\ Order.discount_code order = None
        /\ discount_codes (exec c st) = discount_codes st)
  \/ (exists order code i d now,
        orders (exec c st) = orders st ++ [order]
        /\ Order.discount_code order = Some code
        /\ code <> ""%string
        /\ discount_codes st !! i = Some d
        /\ DiscountCode.code d = code
        /\ DiscountCode.is_used d = false
        /\ discount_codes (exec c st)
           = <[i := DiscountCode.mark_used now d]> (discount_codes st))
  \/ (exists u now,
        orders (exec c st) = orders st
        /\ discount_codes (exec c st)
           = discount_codes st
             ++ [DiscountCode.new ("SAVE10_" +:+ upper (prefix 6 u)) now]).
Proof.
  destruct c as [pid q| | |request u t1 t2|u now]; cbn [exec].
  - left. rewrite add_to_cart_eq.
    destruct (products st !! pid) as [l|]; [|done].
    repeat (destruct (decide _); [done|]).
    cbv zeta. by destruct (Cart.sum_amounts _ _).
  - by left.
  - left. by rewrite clear_cart_eq.
  - rewrite checkout_eq.
    destruct (Cart.items (cart st)); [by left|]. cbv zeta.
    destruct (truthy _) as [code|] eqn:Ht.
    + destruct (list_find _ _) as [[i d]|] eqn:Hf; [|by left].
      apply truthy_Some in Ht as [_ Hne].
      apply list_find_Some in Hf as (Hi & [Hc Hu] & _).
      right; right; left. eexists _, code, i, d, t1. cbn [snd].
      split_and!; try done.
    + right; left. eexists. by split_and!.
  - rewrite generate_discount_code_eq.
    repeat (destruct (decide _); [by left|]).
    right; right; right. by exists u, now.
Qed.

Lemma code_evolves_trans d1 d2 d3 :
  code_evolves d1 d2 -> code_evolves d2 d3 -> code_evolves d1 d3.
Proof.
  intros [->|[Hu (now & ->)]] H23; [done|].
  destruct H23 as [->|[Hu' _]]; [right; by eauto|]. discriminate Hu'.
Qed.

Lemma code_evolves_all_refl ds : Forall2 code_evolves ds ds.
Proof. induction ds; constructor; [by left|done]. Qed.

Lemma codes_evolve_refl ds : codes_evolve ds ds.
Proof.
  exists ds, []. rewrite app_nil_r. split; [done|apply code_evolves_all_refl].
Qed.

Lemma codes_evolve_trans ds1 ds2 ds3 :
  codes_evolve ds1 ds2 -> codes_evolve ds2 ds3 -> codes_evolve ds1 ds3.
Proof.
  intros (k1 & m1 & -> & H1) (k2 & m2 & -> & H2).
  apply Forall2_app_inv_l in H2 as (k1' & m1' & Hk & _ & ->).
  exists k1', (m1' ++ m2). rewrite app_assoc. split; [done|].
  eapply Forall2_trans; [|exact H1|exact Hk].
  apply code_evolves_trans.
Qed.

Lemma exec_codes_evolve c st :
  codes_evolve (discount_codes st) (discount_codes (exec c st)).
Proof.
  destruct (exec_history c st)
    as [[_ ->]|[(o & _ & _ & ->)|[(o & code & i & d & now & _ & _ & _ & Hi & _ & Hu & ->)
                                 |(u & now & _ & ->)]]].
  - apply codes_evolve_refl.
  - apply codes_evolve_refl.
  - exists (<[i := DiscountCode.mark_used now d]> (discount_codes st)), [].
    rewrite app_nil_r. split; [done|].
    rewrite <-(list_insert_id (discount_codes st) i d) at 1 by done.
    apply Forall2_insert; [apply code_evolves_all_refl|].
    right. by eauto.
  - eexists _, _. split; [done|apply code_evolves_all_refl].
Qed.

(** X10.  Discount codes are never deleted, reordered or changed back: after
    any sequence of calls from any state, the earlier code list is found
    again at the front of the later one, entry by entry either unchanged or,
    if it was unused, marked used (the code string, percentage and creation
    time kept); so a used entry stays used, with its time of use, for ever. *)
Theorem discount_codes_only_evolve (cs : list call) (st : EcommerceService) :
  let ds := discount_codes st in
  let ds' := discount_codes (run cs st) in
  codes_evolve ds ds'
  /\ (length ds <= length ds')%nat
  /\ (forall i d, ds !! i = Some d ->
        exists d',
          ds' !! i = Some d'
          /\ DiscountCode.code d' = DiscountCode.code d
          /\ DiscountCode.discount_percentage d' = DiscountCode.discount_percentage d
          /\ DiscountCode.created_at d' = DiscountCode.created_at d
          /\ (DiscountCode.is_used d = true -> d' = d)).
Proof.
  intros ds ds'.
  assert (He : codes_evolve ds ds').
  { subst ds ds'. revert st. induction cs as [|c cs IH]; intros st.
    - apply codes_evolve_refl.
    - cbn [run fold_left]. fold (run cs (exec c st)).
      eapply codes_evolve_trans; [apply exec_codes_evolve|apply IH]. }
  split; [done|].
  destruct He as (kept & more & Hds' & HF).
  pose proof (Forall2_length _ _ _ HF) as Hlen.
  split; [rewrite Hds', length_app; lia|].
  intros i d Hi.
  destruct (Forall2_lookup_l _ _ _ _ _ HF Hi) as (d' & Hi' & Hev).
  exists d'. split; [rewrite Hds'; by apply lookup_app_l_Some|].
  destruct Hev as [->|[Hu (now & ->)]]; [done|].
  split_and!; try done. rewrite Hu. discriminate.
Qed.

Lemma length_filter_insert {A} (P : A -> Prop) `{!forall x, Decision (P x)}
    (l : list A) (i : nat) (x y : A) :
  l !! i = Some x ->
  (length (filter P (<[i := y]> l)) + (if decide (P x) then 1 else 0)
   = length (filter P l) + (if decide (P y) then 1 else 0))%nat.
Proof.
  revert i. induction l as [|a l IH]; intros [|i] Hi; try discriminate.
  - cbn in Hi. injection Hi as ->. cbn [insert list_insert].
    rewrite !filter_cons. repeat destruct (decide _); cbn [length]; lia.
  - cbn in Hi. change (<[S i := y]> (a :: l)) with (a :: <[i := y]> l).
    rewrite !filter_cons. specialize (IH i Hi).
    destruct (decide (P a)); cbn [length]; lia.
Qed.

Lemma orders_with_app code os order :
  orders_with code (os ++ [order])
  = (orders_with code os
     + (if decide (Order.discount_code order = Some code) then 1 else 0))%nat.
Proof.
  unfold orders_with. rewrite filter_app, length_app, filter_cons, filter_nil.
  by destruct (decide _).
Qed.

Lemma entries_with_app code used ds d :
  entries_with code used (ds ++ [d])
  = (entries_with code used ds
     + (if decide (DiscountCode.code d = code /\ DiscountCode.is_used d = used)
        then 1 else 0))%nat.
Proof.
  unfold entries_with. rewrite filter_app, length_app, filter_cons, filter_nil.
  by destruct (decide _).
Qed.

Lemma entries_with_mark_used code used ds i d now :
  ds !! i = Some d -> DiscountCode.is_used d = false ->
  (entries_with code used (<[i := DiscountCode.mark_used now d]> ds)
   + (if decide (DiscountCode.code d = code /\ used = false) then 1 else 0)
   = entries_with code used ds
     + (if decide (DiscountCode.code d = code /\ used = true) then 1 else 0))%nat.
Proof.
  intros Hi Hu. unfold entries_with.
  pose proof (length_filter_insert
    (fun d => DiscountCode.code d = code /\ DiscountCode.is_used d = used)
    ds i d (DiscountCode.mark_used now d) Hi) as H.
  cbn [DiscountCode.mark_used DiscountCode.code DiscountCode.is_used] in H.
  rewrite Hu in H.
  destruct used; repeat destruct (decide _); try lia; naive_solver.
Qed.

Lemma exec_redemptions c st code :
  (orders_with code (orders (exec c st))
   + entries_with code true (discount_codes st)
   = orders_with code (orders st)
     + entries_with code true (discount_codes (exec c st)))%nat.
Proof.
  destruct (exec_history c st)
    as [[-> ->]|[(o & -> & Ho & ->)
               |[(o & code' & i & d & now & -> & Ho & _ & Hi & Hc & Hu & ->)
               |(u & now & -> & ->)]]].
  - lia.
  - rewrite orders_with_app, Ho, decide_False by done. lia.
  - rewrite orders_with_app, Ho.
    pose proof (entries_with_mark_used code true _ i d now Hi Hu) as H.
    rewrite Hc in H.
    repeat destruct (decide _); try lia; naive_solver.
  - rewrite entries_with_app. cbn [DiscountCode.new DiscountCode.is_used].
    rewrite decide_False by (intros [_ ?]; discriminate). lia.
Qed.

(** X11.  Redemptions and used codes match: in every state the engine
    reaches, for every code string, the number of orders in the history that
    redeemed it equals the number of entries of the code list that carry it
    and are marked used.  So an entry is redeemed by at most one order. *)
Theorem redemptions_match_used_codes (cs : list call) (code : string) :
  let st := run cs init in
  orders_with code (orders st) = entries_with code true (discount_codes st).
Proof.
  cbv zeta.
  assert (H : forall st,
    (orders_with code (orders (run cs st)) + entries_with code true (discount_codes st)
     = orders_with code (orders st)
       + entries_with code true (discount_codes (run cs st)))%nat).
  { induction cs as [|c cs IH]; intros st; [cbn; lia|].
    cbn [run fold_left]. fold (run cs (exec c st)).
    pose proof (IH (exec c st)). pose proof (exec_redemptions c st code). lia. }
  specialize (H init). cbn [orders discount_codes init] in H.
  change (orders_with code []) with 0%nat in H.
  change (entries_with code true []) with 0%nat in H. lia.
Qed.

Lemma usable_code_entries code ds :
  usable_code code ds <-> entries_with code false ds <> 0%nat.
Proof.
  unfold usable_code, entries_with. split.
  - intros (d & Hin & Hc & Hu) Hz.
    apply length_zero_iff_nil in Hz.
    assert (Hd : d ∈ filter (fun d => DiscountCode.code d = code
                                      /\ DiscountCode.is_used d = false) ds)
      by (by apply list_elem_of_filter).
    rewrite Hz in Hd. by apply elem_of_nil in Hd.
  - intros Hnz.
    destruct (filter (fun d => DiscountCode.code d = code
                               /\ DiscountCode.is_used d = false) ds)
      as [|d k] eqn:E; [done|].
    assert (Hd : d ∈ filter (fun d => DiscountCode.code d = code
                                      /\ DiscountCode.is_used d = false) ds)
      by (rewrite E; apply list_elem_of_here).
    apply list_elem_of_filter in Hd as [[Hc Hu] Hin]. by exists d.
Qed.

(** X12.  A discount code entry is single-use: a successful checkout that
    applies a code marks exactly one unused entry carrying it as used and
    leaves the length of the code list as it was; and if that was the only
    unused entry carrying the code, the code is no longer accepted. *)
Theorem redeeming_uses_up_one_entry
    (st : EcommerceService) (request : CheckoutRequest.t)
    (uuid4_hex : string) (now_used now_created : datetime)
    (response : CheckoutResponse.t) (code : string) :
  fst (checkout request uuid4_hex now_used now_created st) = Ok response ->
  CheckoutResponse.discount_code response = Some code ->
  let ds := discount_codes st in
  let ds' := discount_codes (exec (Checkout request uuid4_hex now_used now_created) st) in
  entries_with code false ds = S (entries_with code false ds')
  /\ entries_with code true ds' = S (entries_with code true ds)
  /\ length ds' = length ds
  /\ (entries_with code false ds = 1%nat -> ~ usable_code code ds').
Proof.
  intros Hc Hcode ds ds'. subst ds ds'. cbn [exec].
  rewrite checkout_eq in Hc |- *.
  destruct (Cart.items (cart st)) as [|item its]; [discriminate|].
  cbv zeta in Hc |- *.
  destruct (truthy _) as [code'|]; [|by injection Hc as <-].
  destruct (list_find _ _) as [[i d]|] eqn:Hf; [|discriminate].
  cbn [fst snd committed discount_codes set_discount_codes] in *.
  injection Hc as <-. cbn in Hcode. injection Hcode as ->.
  apply list_find_Some in Hf as (Hi & [Hcd Hu] & _).
  pose proof (entries_with_mark_used code false _ i d now_used Hi Hu) as H1.
  pose proof (entries_with_mark_used code true _ i d now_used Hi Hu) as H2.
  rewrite decide_True in H1 by done.
  rewrite (decide_False (P := _ /\ false = true)) in H1 by (intros [_ ?]; discriminate).
  rewrite (decide_False (P := _ /\ true = false)) in H2 by (intros [_ ?]; discriminate).
  rewrite decide_True in H2 by done.
  split_and!; [lia|lia|by rewrite length_insert|].
  intros Hone Hus. apply usable_code_entries in Hus. lia.
Qed.

Lemma redeeming_uses_up_one_entry_witness :
  let st := run cart_and_code init in
  let st' := exec (Checkout with_code_a uuid_a 30 31) st in
  let response :=
    CheckoutResponse.mk "order_3f2a9c1e" (Float.of_ratio 19999 100)
      (Float.of_ratio 19999 1000) (Float.of_ratio 179991 1000) (Some code_a)
      "Order placed successfully!" in
  fst (checkout with_code_a uuid_a 30 31 st) = Ok response
  /\ entries_with code_a false (discount_codes st) = 1%nat
  /\ entries_with code_a false (discount_codes st)
     = S (entries_with code_a false (discount_codes st'))
  /\ ~ usable_code code_a (discount_codes st').
Proof.
  intros st st' response.
  assert (H : fst (checkout with_code_a uuid_a 30 31 st) = Ok response)
    by (vm_compute; reflexivity).
  assert (H1 : entries_with code_a false (discount_codes st) = 1%nat)
    by (vm_compute; reflexivity).
  destruct (redeeming_uses_up_one_entry st with_code_a uuid_a 30 31 response code_a
              H eq_refl) as (H2 & _ & _ & H3).
  split; [exact H|]. split; [exact H1|]. split; [exact H2|exact (H3 H1)].
Defined.

(** ** The format of the codes *)

Lemma length_prefix n s : String.length (prefix n s) = Nat.min n (String.length s).
Proof.
  unfold prefix. revert s. induction n as [|n IH]; intros [|c s]; cbn; try done.
  by rewrite IH.
Qed.

Lemma length_append s1 s2 :
  String.length (s1 +:+ s2) = (String.length s1 + String.length s2)%nat.
Proof.
  induction s1 as [|c s1 IH]; [reflexivity|].
  change (S (String.length (s1 +:+ s2)) = S (String.length s1 + String.length s2)).
  by rewrite IH.
Qed.

Lemma length_upper s : String.length (upper s) = String.length s.
Proof. induction s as [|c s IH]; cbn; [done|by rewrite IH]. Qed.

Lemma upper_ascii_not_lower c : negb (is_lower (upper_ascii c)) = true.
Proof. by destruct c as [[] [] [] [] [] [] [] []]; vm_compute. Qed.

Lemma upper_no_lower s : string_forall (fun c => negb (is_lower c)) (upper s) = true.
Proof.
  induction s as [|c s IH]; cbn [upper string_forall]; [done|].
  by rewrite upper_ascii_not_lower, IH.
Qed.

Lemma code_ok_new u now :
  code_ok (DiscountCode.new ("SAVE10_" +:+ upper (prefix 6 u)) now).
Proof.
  exists (upper (prefix 6 u)). split_and!; try done.
  - rewrite length_upper, length_prefix. lia.
  - apply upper_no_lower.
Qed.

Lemma code_ok_mark_used now d : code_ok d -> code_ok (DiscountCode.mark_used now d).
Proof. intros (suffix & ? & ? & ? & ? & ?). by exists suffix. Qed.

Lemma exec_codes_ok c st :
  Forall code_ok (discount_codes st) -> Forall code_ok (discount_codes (exec c st)).
Proof.
  intros Hok.
  destruct (exec_history c st)
    as [[_ ->]|[(o & _ & _ & ->)|[(o & code & i & d & now & _ & _ & _ & Hi & _ & _ & ->)
                                 |(u & now & _ & ->)]]]; try done.
  - apply Forall_insert; [done|]. apply code_ok_mark_used.
    by eapply Forall_lookup_1.
  - apply Forall_app. split; [done|]. apply Forall_singleton, code_ok_new.
Qed.

Lemma run_codes_ok cs st :
  Forall code_ok (discount_codes st) -> Forall code_ok (discount_codes (run cs st)).
Proof.
  revert st. induction cs as [|c cs IH]; intros st Hok; [done|].
  cbn. by apply IH, exec_codes_ok.
Qed.

(** X13.  Every code the engine ever holds is [SAVE10_] followed by at most
    six characters with no lower-case letter among them, at 10 percent, with
    no order id recorded; and a code just generated is [SAVE10_] followed by
    the first six characters of the uuid's hex text in upper case, thirteen
    characters in all when the hex text has six or more. *)
Theorem discount_code_format
    (cs : list call) (st : EcommerceService) (uuid4_hex : string) (now : datetime) :
  Forall code_ok (discount_codes (run cs init))
  /\ (forall d, fst (generate_discount_code uuid4_hex now st) = Ok d ->
        DiscountCode.code d = ("SAVE10_" +:+ upper (prefix 6 uuid4_hex))%string
        /\ String.length (DiscountCode.code d)
           = (7 + Nat.min 6 (String.length uuid4_hex))%nat
        /\ DiscountCode.created_at d = now
        /\ DiscountCode.used_at d = None).
Proof.
  split; [by apply run_codes_ok|].
  intros d. rewrite generate_discount_code_eq.
  repeat (destruct (decide _); [discriminate|]).
  cbv zeta. cbn [fst]. intros [= <-]. split_and!; try done.
  cbn [DiscountCode.new DiscountCode.code].
  by rewrite length_append, length_upper, length_prefix.
Qed.

(** ** The order history *)

Lemma sum_amounts_static (h h' : heap_t) its :
  (forall l, static_fields (h l) = static_fields (h' l)) ->
  Cart.sum_amounts h its = Cart.sum_amounts h' its.
Proof.
  intros Hs. unfold Cart.sum_amounts. f_equal.
  induction its as [|item its IH]; [done|].
  cbn [mapM]. rewrite IH. f_equal. unfold Cart.line_amount.
  pose proof (f_equal Product.price (Hs (CartItem.product item))) as Hp.
  cbn in Hp. by rewrite Hp.
Qed.

Lemma order_ok_static (h h' : heap_t) order :
  (forall l, static_fields (h l) = static_fields (h' l)) ->
  order_ok h order -> order_ok h' order.
Proof.
  intros Hs [H1 H2 H3 H4 H5 H6 H7]. split; try done.
  by rewrite <-(sum_amounts_static h h').
Qed.

Lemma order_ok_placed st request u t2 discount discount_code :
  inv st ->
  Cart.items (cart st) <> [] ->
  match discount_code with
  | None => discount = Float.zero
  | Some code =>
    code <> ""%string
    /\ discount
       = Float.round
           (Float.mul (Cart.total_amount (cart st))
              (Float.div (Float.of_ratio 10 1) (Float.of_ratio 100 1))) 3
  end ->
  order_ok (heap st)
    (order_of request u t2 (Cart.total_amount (cart st)) discount discount_code
       (Cart.items (cart st))).
Proof.
  intros Hinv Hne Hd. split; cbn [order_of Order.items Order.status Order.total_amount
    Order.discount_amount Order.discount_code Order.final_amount]; try done.
  - eapply Forall_impl; [apply (inv_items st Hinv)|]. by intros ? [_ ?].
  - apply Hinv.
  - apply Hinv.
Qed.

Lemma exec_orders_ok c st :
  inv st -> Forall code_ok (discount_codes st) ->
  Forall (order_ok (heap st)) (orders st) ->
  Forall (order_ok (heap (exec c st))) (orders (exec c st)).
Proof.
  intros Hinv Hcodes Hok.
  assert (Hold : Forall (order_ok (heap (exec c st))) (orders st)).
  { eapply Forall_impl; [exact Hok|]. intros o. apply order_ok_static.
    intros l. by rewrite exec_static. }
  destruct c as [pid q| | |request u t1 t2|u now].
  - destruct (exec_orders (AddToCart pid q) st)
      as [[-> _]|(? & ? & ? & ? & ? & [=] & _)]. done.
  - done.
  - destruct (exec_orders ClearCart st) as [[-> _]|(? & ? & ? & ? & ? & [=] & _)]. done.
  - revert Hold. cbn [exec]. rewrite checkout_eq.
    destruct (Cart.items (cart st)) as [|item its] eqn:Hits; [done|].
    cbv zeta. rewrite <-Hits.
    assert (Hne : Cart.items (cart st) <> []) by (by rewrite Hits).
    destruct (truthy _) as [code|] eqn:Ht.
    + destruct (list_find _ _) as [[i d]|] eqn:Hf; [|done].
      cbn [snd committed orders heap set_discount_codes]. intros Hold.
      apply Forall_app. split; [done|]. apply Forall_singleton.
      apply (order_ok_static (heap st));
        [intros l; by rewrite restored_heap_static|].
      apply order_ok_placed; [done..|].
      apply truthy_Some in Ht as [_ Hcne]. split; [done|].
      apply list_find_Some in Hf as (Hi & _ & _).
      destruct (proj1 (Forall_lookup _ _) Hcodes i d Hi) as (? & _ & _ & _ & Hp & _).
      unfold discount_for. by rewrite Hp.
    + cbn [snd committed orders heap]. intros Hold.
      apply Forall_app. split; [done|]. apply Forall_singleton.
      apply (order_ok_static (heap st));
        [intros l; by rewrite restored_heap_static|].
      by apply order_ok_placed.
  - destruct (exec_orders (GenerateDiscountCode u now) st)
      as [[-> _]|(? & ? & ? & ? & ? & [=] & _)]. done.
Qed.

Lemma run_orders_ok cs st :
  inv st -> Forall code_ok (discount_codes st) ->
  Forall (order_ok (heap st)) (orders st) ->
  Forall (order_ok (heap (run cs st))) (orders (run cs st)).
Proof.
  revert st. induction cs as [|c cs IH]; intros st Hinv Hcodes Hok; [done|].
  cbn. apply IH; [by apply inv_exec|by apply exec_codes_ok|by apply exec_orders_ok].
Qed.

(** X14.  Every order in the history of a state the engine reaches is well
    formed: it has at least one line, its quantities are positive, it has
    one line per product, its status is CONFIRMED, its total is the sum of
    quantity times catalog price over its lines, its discount is 0 without a
    code and 10 percent of the total rounded to 3 decimals with one, and its
    final amount is the total minus the discount rounded to 3 decimals. *)
Theorem orders_are_well_formed (cs : list call) :
  let st := run cs init in
  Forall (order_ok (heap st)) (orders st).
Proof.
  apply run_orders_ok; [apply inv_init_state|done|done].
Qed.

(** ** [get_analytics] *)

Lemma get_analytics_eq st :
  get_analytics st
  = (Ok (AdminReport.mk
           (fold_left Z.add
              (map (fun order => Cart.sum_quantities (Order.items order)) (orders st)) 0)
           (Float.sum (map Order.final_amount (orders st)))
           (map DiscountCode.code (discount_codes st))
           (Float.sum (map Order.discount_amount (orders st)))),
     st).
Proof. reflexivity. Qed.

Lemma get_analytics_same st st' :
  orders st' = orders st -> discount_codes st' = discount_codes st ->
  fst (get_analytics st') = fst (get_analytics st).
Proof. intros Ho Hd. rewrite !get_analytics_eq. cbn [fst]. by rewrite Ho, Hd. Qed.

(** X15.  [get_analytics] never raises and changes nothing.  Its report
    follows the history: a successful checkout raises the items purchased by
    the quantities in the cart and leaves the code strings as they were, a
    successful code generation appends the new code string and leaves the
    three totals as they were, and every other call, and every failed one,
    leaves the whole report as it was. *)
Theorem analytics_follow_the_history (st : EcommerceService) (c : call) :
  exists r r',
    get_analytics st = (Ok r, st)
    /\ fst (get_analytics (exec c st)) = Ok r'
    /\ AdminReport.discount_codes r = map DiscountCode.code (discount_codes st)
    /\ match c with
       | Checkout request u t1 t2 =>
         (forall response, fst (checkout request u t1 t2 st) = Ok response ->
            AdminReport.total_items_purchased r'
            = AdminReport.total_items_purchased r
              + Cart.sum_quantities (Cart.items (cart st))
            /\ AdminReport.discount_codes r' = AdminReport.discount_codes r)
         /\ (forall e, fst (checkout request u t1 t2 st) = Raise e -> r' = r)
       | GenerateDiscountCode u now =>
         (forall d, fst (generate_discount_code u now st) = Ok d ->
            AdminReport.discount_codes r'
            = AdminReport.discount_codes r ++ [DiscountCode.code d]
            /\ AdminReport.total_items_purchased r'
               = AdminReport.total_items_purchased r
            /\ AdminReport.total_purchase_amount r'
               = AdminReport.total_purchase_amount r
            /\ AdminReport.total_discount_amount r'
               = AdminReport.total_discount_amount r)
         /\ (forall e, fst (generate_discount_code u now st) = Raise e -> r' = r)
       | _ => r' = r
       end.
Proof.
  eexists _, _. split; [apply get_analytics_eq|].
  split; [by rewrite get_analytics_eq|]. split; [done|].
  destruct c as [pid q| | |request u t1 t2|u now]; cbn [exec].
  - rewrite add_to_cart_eq.
    destruct (products st !! pid) as [l|]; [|done].
    repeat (destruct (decide _); [done|]).
    cbv zeta. by destruct (Cart.sum_amounts _ _).
  - done.
  - by rewrite clear_cart_eq.
  - rewrite checkout_eq.
    destruct (Cart.items (cart st)) as [|item its] eqn:Hits; [done|].
    cbv zeta. rewrite <-Hits.
    destruct (truthy _) as [code|].
    + destruct (list_find _ _) as [[i d]|] eqn:Hf; [|done].
      apply list_find_Some in Hf as (Hi & _ & _).
      cbn [fst snd committed orders discount_codes set_discount_codes
           AdminReport.total_items_purchased AdminReport.discount_codes].
      split; [|done]. intros _ _. split.
      * rewrite map_app, fold_left_app. cbn [map fold_left order_of Order.items]. done.
      * change (map DiscountCode.code ?x) with (DiscountCode.code <$> x).
        rewrite list_fmap_insert. cbn [DiscountCode.mark_used DiscountCode.code].
        apply list_insert_id. by rewrite list_lookup_fmap, Hi.
    + cbn [fst snd committed orders discount_codes
           AdminReport.total_items_purchased AdminReport.discount_codes].
      split; [|done]. intros _ _. split; [|done].
      rewrite map_app, fold_left_app. cbn [map fold_left order_of Order.items]. done.
  - rewrite generate_discount_code_eq.
    repeat (destruct (decide _); [done|]).
    cbv zeta. cbn [fst snd orders discount_codes set_discount_codes
                   AdminReport.total_items_purchased AdminReport.discount_codes
                   AdminReport.total_purchase_amount AdminReport.total_discount_amount].
    split; [|done]. intros d [= <-]. split_and!; try done.
    by rewrite map_app.
Qed.

(** ** Stock along every sequence of calls *)

(** X16.  Stock plus cart quantity is conserved along every sequence of
    calls, checkouts included: in every state the engine reaches each
    product's stock plus the quantity of it in the cart is its initial
    stock.  So whenever the cart is empty, as it is after every [clear_cart]
    and every successful [checkout], every product is at its initial
    stock. *)
Theorem stock_conserved_by_every_call
    (cs : list call) (product_id : string) (l : loc) :
  products init !! product_id = Some l ->
  let st := run cs init in
  Product.stock (heap st l) + cart_quantity product_id (Cart.items (cart st))
  = Product.stock (heap init l)
  /\ (Cart.items (cart st) = [] ->
      Product.stock (heap st l) = Product.stock (heap init l)).
Proof.
  intros Hl st. pose proof (inv_reachable cs) as Hinv. fold st in Hinv.
  rewrite <-(inv_products st Hinv) in Hl.
  destruct (inv_stock st Hinv _ _ Hl) as [_ Hsum]. split; [done|].
  intros Hempty. rewrite Hempty in Hsum.
  rewrite (cart_quantity_absent product_id []) in Hsum by apply not_elem_of_nil.
  lia.
Qed.

Lemma stock_conserved_by_every_call_witness :
  let cs := [AddToCart "prod_004" 3; Checkout no_discount uuid_a 10 11;
             AddToCart "prod_004" 5] in
  let st := run cs init in
  Product.stock (heap init 3%nat) = 30
  /\ Product.stock (heap st 3%nat) = 25
  /\ length (orders st) = 1%nat
  /\ Product.stock (heap st 3%nat) + cart_quantity "prod_004" (Cart.items (cart st))
     = Product.stock (heap init 3%nat).
Proof.
  intros cs st.
  assert (Hl : products init !! "prod_004"%string = Some 3%nat)
    by (vm_compute; reflexivity).
  split; [vm_compute; reflexivity|]. split; [vm_compute; reflexivity|].
  split; [vm_compute; reflexivity|].
  exact (proj1 (stock_conserved_by_every_call cs "prod_004" 3%nat Hl)).
Defined.

(** ** Adding twice *)

Lemma added_items_nil pid q l : added_items pid q l [] = [CartItem.mk pid q l].
Proof. reflexivity. Qed.

Lemma added_items_cons pid q l item its :
  added_items pid q l (item :: its)
  = if decide (CartItem.product_id item = pid)
    then CartItem.set_quantity (CartItem.quantity item + q) item :: its
    else item :: added_items pid q l its.
Proof.
  unfold added_items, find_existing_item. cbn [list_find].
  destruct (decide (CartItem.product_id item = pid)); [done|].
  by destruct (list_find _ its) as [[i x]|].
Qed.

Lemma added_items_twice pid q1 q2 l its :
  added_items pid q2 l (added_items pid q1 l its) = added_items pid (q1 + q2) l its.
Proof.
  induction its as [|item its IH].
  - rewrite !added_items_nil, added_items_cons. cbn [CartItem.product_id].
    by rewrite decide_True.
  - rewrite !(added_items_cons _ _ _ item).
    destruct (decide (CartItem.product_id item = pid)) as [Hp|Hp].
    + rewrite added_items_cons. cbn [CartItem.set_quantity CartItem.product_id
        CartItem.quantity CartItem.product].
      rewrite decide_True by done. by rewrite Z.add_assoc.
    + rewrite added_items_cons, decide_False by done. by rewrite IH.
Qed.

(** X17.  Adds of one product accumulate: when an add of [q1] and then an
    add of [q2] of the same product both succeed, a single add of
    [q1 + q2] from the first state succeeds as well and gives the same cart,
    lines and totals, and the same product objects. *)
Theorem add_to_cart_twice
    (st : EcommerceService) (product_id : string) (q1 q2 : Z) (c1 c2 : Cart.t) :
  let st1 := exec (AddToCart product_id q1) st in
  let st2 := exec (AddToCart product_id q2) st1 in
  let st12 := exec (AddToCart product_id (q1 + q2)) st in
  fst (add_to_cart product_id q1 st) = Ok c1 ->
  fst (add_to_cart product_id q2 st1) = Ok c2 ->
  fst (add_to_cart product_id (q1 + q2) st) = Ok c2
  /\ cart st12 = cart st2
  /\ (forall l, heap st12 l = heap st2 l).
Proof.
  intros st1 st2 st12 H1 H2. subst st12 st2.
  assert (Hst1 : st1 = snd (add_to_cart product_id q1 st)) by done.
  clearbody st1. cbn [exec].
  rewrite add_to_cart_eq in H1, Hst1.
  destruct (products st !! product_id) as [l|] eqn:Hl; [|discriminate].
  destruct (decide (q1 <= 0)); [discriminate|].
  destruct (decide (Product.stock (heap st l) < q1)); [discriminate|].
  cbv zeta in H1, Hst1.
  destruct (Cart.sum_amounts _ _) as [total1|]; [|discriminate].
  cbn [fst snd] in H1, Hst1. clear H1.
  rewrite add_to_cart_eq in H2. rewrite !add_to_cart_eq.
  subst st1. cbn [products set_heap set_cart heap cart Cart.items] in H2 |- *.
  rewrite Hl in H2 |- *.
  destruct (decide (q2 <= 0)); [discriminate|].
  rewrite heap_update_eq in H2 |- *. cbn [Product.stock Product.set_stock] in H2 |- *.
  destruct (decide (Product.stock (heap st l) - q1 < q2)); [discriminate|].
  rewrite !decide_False by lia.
  cbv zeta in H2 |- *. rewrite added_items_twice in H2 |- *.
  set (h2 := heap_update l (fun p => Product.set_stock (Product.stock p - q2) p)
               (heap_update l (fun p => Product.set_stock (Product.stock p - q1) p)
                  (heap st))) in *.
  set (h12 := heap_update l
                (fun p => Product.set_stock (Product.stock p - (q1 + q2)) p)
                (heap st)) in *.
  assert (Hh : forall l', h2 l' = h12 l').
  { intros l'. subst h2 h12. unfold heap_update.
    destruct (decide (l' = l)) as [->|]; [|done].
    rewrite decide_True by done. unfold Product.set_stock. cbn. f_equal. lia. }
  assert (Hs : Cart.sum_amounts h2
                 (added_items product_id (q1 + q2) l (Cart.items (cart st)))
               = Cart.sum_amounts h12
                   (added_items product_id (q1 + q2) l (Cart.items (cart st))))
    by (apply sum_amounts_static; intros l'; by rewrite Hh).
  rewrite Hs in H2 |- *.
  destruct (Cart.sum_amounts h12 _) as [total|]; [|discriminate].
  cbn [fst snd heap set_heap cart set_cart] in H2 |- *.
  injection H2 as <-. split_and!; [done|done|].
  intros l'. by rewrite Hh.
Qed.

Lemma add_to_cart_twice_witness :
  let st := run [AddToCart "prod_002" 1] init in
  let st1 := exec (AddToCart "prod_001" 2) st in
  let st2 := exec (AddToCart "prod_001" 3) st1 in
  let st12 := exec (AddToCart "prod_001" (2 + 3)) st in
  fst (add_to_cart "prod_001" 2 st) = Ok (cart st1)
  /\ fst (add_to_cart "prod_001" 3 st1) = Ok (cart st2)
  /\ Cart.items (cart st2)
     = [CartItem.mk "prod_002" 1 1%nat; CartItem.mk "prod_001" 5 0%nat]
  /\ fst (add_to_cart "prod_001" (2 + 3) st) = Ok (cart st2)
  /\ cart st12 = cart st2.
Proof.
  intros st st1 st2 st12.
  assert (H1 : fst (add_to_cart "prod_001" 2 st) = Ok (cart st1))
    by (vm_compute; reflexivity).
  assert (H2 : fst (add_to_cart "prod_001" 3 st1) = Ok (cart st2))
    by (vm_compute; reflexivity).
  destruct (add_to_cart_twice st "prod_001" 2 3 (cart st1) (cart st2) H1 H2)
    as (H3 & H4 & _).
  split; [exact H1|]. split; [exact H2|]. split; [vm_compute; reflexivity|].
  split; [exact H3|exact H4].
Defined.

(** ** A failure that is not atomic *)

Lemma sum_amounts_overflow h its :
  Exists (fun item => Float.of_int (CartItem.quantity item) = None) its ->
  Cart.sum_amounts h its = None.
Proof.
  intros Hex. unfold Cart.sum_amounts.
  destruct (mapM (Cart.line_amount h) its) as [amounts|] eqn:E; [|done].
  assert (Hs : is_Some (mapM (Cart.line_amount h) its)) by (by rewrite E).
  apply mapM_is_Some in Hs.
  apply Exists_exists in Hex as (item & Hin & Hov).
  destruct (proj1 (Forall_forall _ _) Hs item Hin) as [x Hx].
  cbn in Hx. unfold Cart.line_amount in Hx. by rewrite Hov in Hx.
Qed.

(** X18.  The one failure of [add_to_cart] that is not atomic: when the
    three checks pass but a quantity of the updated cart is too large to
    convert to a float, [calculate_totals] raises [OverflowError] after the
    cart lines and the stock have been updated, and the update stays: the
    line is there, the stock is lowered, and the totals are stale. *)
Theorem add_to_cart_overflow_keeps_the_update
    (st : EcommerceService) (product_id : string) (quantity : Z) (l : loc) :
  products st !! product_id = Some l ->
  0 < quantity <= Product.stock (heap st l) ->
  let its := added_items product_id quantity l (Cart.items (cart st)) in
  Exists (fun item => Float.of_int (CartItem.quantity item) = None) its ->
  let st' := exec (AddToCart product_id quantity) st in
  fst (add_to_cart product_id quantity st) = Raise OverflowError
  /\ Cart.items (cart st') = its
  /\ Product.stock (heap st' l) = Product.stock (heap st l) - quantity
  /\ Cart.total_amount (cart st') = Cart.total_amount (cart st)
  /\ Cart.item_count (cart st') = Cart.item_count (cart st).
Proof.
  intros Hl Hq its Hex st'. subst st'. cbn [exec].
  rewrite add_to_cart_eq, Hl, !decide_False by lia.
  cbv zeta. fold its. rewrite sum_amounts_overflow by done.
  cbn [fst snd cart set_cart set_heap heap Cart.set_items Cart.items
       Cart.total_amount Cart.item_count].
  by rewrite heap_update_eq.
Qed.

Lemma add_to_cart_overflow_keeps_the_update_witness :
  let st := overflowing_stock in
  let st' := exec (AddToCart "prod_001" (2 ^ 1024)) st in
  Float.of_int (2 ^ 1024) = None
  /\ fst (add_to_cart "prod_001" (2 ^ 1024) st) = Raise OverflowError
  /\ Cart.items (cart st) = []
  /\ Cart.items (cart st') = [CartItem.mk "prod_001" (2 ^ 1024) 0%nat]
  /\ Product.stock (heap st' 0%nat) = Product.stock (heap st 0%nat) - 2 ^ 1024.
Proof.
  intros st st'.
  assert (Hl : products st !! "prod_001"%string = Some 0%nat)
    by (vm_compute; reflexivity).
  assert (Hs : Product.stock (heap st 0%nat) = 2 ^ 1024) by reflexivity.
  assert (Hov : Float.of_int (2 ^ 1024) = None) by (vm_compute; reflexivity).
  assert (Hits : added_items "prod_001" (2 ^ 1024) 0%nat (Cart.items (cart st))
                 = [CartItem.mk "prod_001" (2 ^ 1024) 0%nat]) by reflexivity.
  destruct (add_to_cart_overflow_keeps_the_update st "prod_001" (2 ^ 1024) 0%nat Hl)
    as (H1 & H2 & H3 & _).
  - rewrite Hs. split; [by vm_compute|lia].
  - rewrite Hits. apply Exists_cons_hd. exact Hov.
  - split; [exact Hov|]. split; [exact H1|]. split; [reflexivity|].
    split; [exact (eq_trans H2 Hits)|exact H3].
Defined.

(** ** From generation to redemption *)

(** X19.  A code just generated can be redeemed at once: in a state the
    engine reaches, after a successful [generate_discount_code] the new code
    is accepted, and if the cart has a line a checkout carrying it succeeds,
    applies it, and grants 10 percent of the cart total rounded to
    3 decimals. *)
Theorem generated_code_is_redeemable
    (cs : list call) (uuid4_hex : string) (now : datetime) (d : DiscountCode.t)
    (request : CheckoutRequest.t) (uuid4_hex' : string) (t1 t2 : datetime) :
  let st := run cs init in
  let st' := exec (GenerateDiscountCode uuid4_hex now) st in
  fst (generate_discount_code uuid4_hex now st) = Ok d ->
  CheckoutRequest.discount_code request = Some (DiscountCode.code d) ->
  Cart.items (cart st) <> [] ->
  usable_code (DiscountCode.code d) (discount_codes st')
  /\ exists response,
       fst (checkout request uuid4_hex' t1 t2 st') = Ok response
       /\ CheckoutResponse.discount_code response = Some (DiscountCode.code d)
       /\ CheckoutResponse.total_amount response = Cart.total_amount (cart st)
       /\ CheckoutResponse.discount_amount response
          = Float.round
              (Float.mul (Cart.total_amount (cart st))
                 (Float.div (Float.of_ratio 10 1) (Float.of_ratio 100 1))) 3.
Proof.
  intros st st' Hgen Hreq Hne.
  assert (Hok : Forall code_ok (discount_codes st'))
    by (apply exec_codes_ok, run_codes_ok; done).
  subst st'. cbn [exec] in *. rewrite generate_discount_code_eq in Hgen, Hok |- *.
  repeat (destruct (decide _); [discriminate|]).
  cbv zeta in Hgen, Hok |- *. cbn [fst snd] in Hgen, Hok |- *. injection Hgen as <-.
  set (d := DiscountCode.new ("SAVE10_" +:+ upper (prefix 6 uuid4_hex)) now) in *.
  set (st' := set_discount_codes (discount_codes st ++ [d]) st) in *.
  assert (Hus : usable_code (DiscountCode.code d) (discount_codes st')).
  { exists d. split_and!; [|done|done].
    cbn [st' discount_codes set_discount_codes]. apply elem_of_app. right.
    apply list_elem_of_here. }
  split; [done|].
  apply usable_code_find in Hus as (i & d0 & Hf).
  rewrite checkout_eq.
  change (Cart.items (cart st')) with (Cart.items (cart st)).
  destruct (Cart.items (cart st)) as [|item its]; [done|].
  cbv zeta. rewrite Hreq.
  change (truthy (Some (DiscountCode.code d))) with (Some (DiscountCode.code d)).
  cbv beta iota. rewrite Hf. cbn [fst]. eexists. split; [done|].
  apply list_find_Some in Hf as (Hi & _ & _).
  destruct (proj1 (Forall_lookup _ _) Hok i d0 Hi) as (? & _ & _ & _ & Hp & _).
  unfold response_of, discount_for.
  cbn [CheckoutResponse.discount_code CheckoutResponse.total_amount
       CheckoutResponse.discount_amount].
  by rewrite Hp.
Qed.

Lemma generated_code_is_redeemable_witness :
  let cs := five_orders ++ [AddToCart "prod_001" 1] in
  let st := run cs init in
  let st' := exec (GenerateDiscountCode uuid_a 20) st in
  fst (generate_discount_code uuid_a 20 st) = Ok (DiscountCode.new code_a 20)
  /\ Cart.items (cart st) = [CartItem.mk "prod_001" 1 0%nat]
  /\ exists response,
       fst (checkout with_code_a uuid_a 30 31 st') = Ok response
       /\ CheckoutResponse.discount_code response = Some code_a.
Proof.
  intros cs st st'.
  assert (Hg : fst (generate_discount_code uuid_a 20 st)
               = Ok (DiscountCode.new code_a 20)) by (vm_compute; reflexivity).
  assert (Hits : Cart.items (cart st) = [CartItem.mk "prod_001" 1 0%nat])
    by (vm_compute; reflexivity).
  split; [exact Hg|]. split; [exact Hits|].
  destruct (generated_code_is_redeemable cs uuid_a 20 (DiscountCode.new code_a 20)
              with_code_a uuid_a 30 31 Hg eq_refl)
    as (_ & response & H1 & H2 & _).
  - fold st. rewrite Hits. discriminate.
  - exists response. split; [exact H1|exact H2].
Defined.
